(** * Crimson Dominion: session manager and battle resolver

    A shallow embedding of [src/auth/endpoints.py] (login, refresh_token,
    get_current_user), [src/user_battles/endpoints.py] (start_battle) and
    the part of [src/database/database.py] they call (connect_to_db),
    with the properties the specification states about them. *)

From Stdlib Require Import Ascii.
From stdpp Require Import gmap strings list fin_maps pretty.

Local Open Scope Z_scope.
Local Open Scope string_scope.

(** ** Python values and exceptions *)

(** The end of line of Python's ["\n"]. *)
Definition nl : string := String (ascii_of_nat 10) EmptyString.

(** [uuid.UUID], by its value [UUID.int]; [str] reads its low 128 bits. *)
Record UUID := mkUUID { uuid_int : N }.

Global Instance UUID_eq_dec : EqDecision UUID.
Proof. solve_decision. Defined.

Definition hex_digit (n : N) : ascii :=
  match n with
  | 0 => "0" | 1 => "1" | 2 => "2" | 3 => "3" | 4 => "4" | 5 => "5"
  | 6 => "6" | 7 => "7" | 8 => "8" | 9 => "9" | 10 => "a" | 11 => "b"
  | 12 => "c" | 13 => "d" | 14 => "e" | _ => "f"
  end%N%char.

(** The [k] lowest hexadecimal digits of [n], most significant first,
    in front of [acc]. *)
Fixpoint hex_digits (k : nat) (n : N) (acc : string) : string :=
  match k with
  | O => acc
  | S k' => hex_digits k' (n / 16)%N (String (hex_digit (n mod 16)%N) acc)
  end.

(** [str(u)] for a [UUID]: 32 hexadecimal digits grouped 8-4-4-4-12. *)
Definition str_UUID (u : UUID) : string :=
  let h := hex_digits 32 (uuid_int u) "" in
  String.substring 0 8 h ++ "-" ++ String.substring 8 4 h ++ "-" ++ String.substring 12 4 h
    ++ "-" ++ String.substring 16 4 h ++ "-" ++ String.substring 20 12 h.

(** [fastapi.HTTPException(status_code, detail, headers)]. *)
Record HTTPException := mkHTTPException {
  status_code : Z;
  detail : string;
  headers : list (string * string)
}.

Global Instance HTTPException_eq_dec : EqDecision HTTPException.
Proof. solve_decision. Defined.

(** A raised Python exception: an [HTTPException], a [JWTError] of the
    token library, or any other exception, kept by its [str()]. *)
Inductive exn :=
  | EHTTP (e : HTTPException)
  | EOther (msg : string).

Global Instance exn_eq_dec : EqDecision exn.
Proof. solve_decision. Defined.

(** The outcome of a call: a returned value or a raised exception. *)
Inductive res (A : Type) :=
  | Ok (a : A)
  | Raise (e : exn).
Arguments Ok {A} a.
Arguments Raise {A} e.

Definition res_bind {A B} (m : res A) (k : A → res B) : res B :=
  match m with
  | Ok a => k a
  | Raise e => Raise e
  end.

Notation "x ←! m ; k" := (res_bind m (λ x, k))
  (at level 100, m at next level, right associativity,
   format "x  ←!  m ;  '/' k").

(** [try: body  except Exception as e: raise handler(e)]. *)
Definition try_except {A} (body : res A) (handler : exn → exn) : res A :=
  match body with
  | Ok a => Ok a
  | Raise e => Raise (handler e)
  end.

(** ** JSON values of token claims *)

(** The JSON scalars a claim set of this program ranges over. Python's
    [None] is [JNull]. *)
Inductive jvalue :=
  | JNull
  | JBool (b : bool)
  | JNum (n : Z)
  | JStr (s : string).

Global Instance jvalue_eq_dec : EqDecision jvalue.
Proof. solve_decision. Defined.

(** Python truthiness, as [not x] and [all([...])] test it. *)
Definition truthy (v : jvalue) : bool :=
  match v with
  | JNull => false
  | JBool b => b
  | JNum n => bool_decide (n ≠ 0)
  | JStr s => bool_decide (s ≠ "")
  end.

(** [v is not None]. *)
Definition is_not_None (v : jvalue) : bool :=
  match v with
  | JNull => false
  | _ => true
  end.

(** [payload.get(key)]: a missing key gives [None]. *)
Definition dict_get (payload : gmap string jvalue) (key : string) : jvalue :=
  default JNull (payload !! key).

(** Python's [all]. *)
Definition all (l : list bool) : bool := forallb id l.

(** ** The relational store *)

(** A row of [users], in the column order of the query of
    [get_user_by_username]: id, username, email, password, is_admin. *)
Record user_row := mkUserRow {
  user_id_col : UUID;
  username_col : string;
  email_col : string;
  password_col : string;
  is_admin_col : bool
}.

(** A row of [user_fleets] as [start_battle] selects it: id, user_id,
    ships. The ships column holds a JSON object from ship type to ship
    count; it is kept as the dictionary that
    [json.loads(x) if isinstance(x, str) else x] evaluates to. *)
Record fleet_row := mkFleetRow {
  fleet_id_col : UUID;
  fleet_user_id_col : UUID;
  ships_col : gmap string Z
}.

Record store := mkStore {
  users : list user_row;
  user_fleets : list fleet_row
}.

(** What [connect_to_db] meets: no [DATABASE_URL], a failing
    [psycopg.connect] (with the [str()] of its exception), or a
    connection to the store. *)
Inductive db_env :=
  | DbUrlMissing
  | DbDown (msg : string)
  | DbUp (s : store).

Definition connect_to_db (db : db_env) : res store :=
  match db with
  | DbUrlMissing =>
      Raise (EHTTP (mkHTTPException 500
        "Database URL is not set in environment variables" []))
  | DbDown msg =>
      Raise (EHTTP (mkHTTPException 500
        ("Database connection error: " ++ msg) []))
  | DbUp s => Ok s
  end.

(** [cursor.execute("SELECT ... WHERE key = %s"); cursor.fetchone()]:
    the first row that matches, or [None]. *)
Definition fetchone {R} (P : R → bool) (table : list R) : option R :=
  List.find P table.

(** ** Battle resolver: [src/user_battles/endpoints.py] *)

(** [TokenData] of [src/auth/endpoints.py]: the authenticated caller. *)
Record TokenData := mkTokenData {
  td_id : string;
  td_username : string;
  td_is_admin : bool
}.

Global Instance TokenData_eq_dec : EqDecision TokenData.
Proof. solve_decision. Defined.

Record BattleResult := mkBattleResult {
  battle_id : UUID;
  attacker_id : UUID;
  defender_id : UUID;
  attacker_fleet_id : UUID;
  defender_fleet_id : UUID;
  winner_id : UUID;
  loser_id : UUID;
  attacker_total_ships : Z;
  defender_total_ships : Z;
  report : string
}.

(** [sum(ships.values())]. *)
Definition sum_values (ships : gmap string Z) : Z :=
  map_fold (λ _ count acc, acc + count) 0 ships.

(** The f-string of the battle report. *)
Definition battle_report (battle : UUID) (outcome : string)
    (attacker_total defender_total : Z) : string :=
  "Battle ID: " ++ str_UUID battle ++ nl ++ outcome ++ "!" ++ nl
    ++ "Attacker ships: " ++ pretty attacker_total ++ nl
    ++ "Defender ships: " ++ pretty defender_total.

Section user_battles.
(** [str(e)] of an [HTTPException], which the web framework defines. *)
Variable http_str : HTTPException → string.

Definition exn_str (e : exn) : string :=
  match e with
  | EHTTP h => http_str h
  | EOther msg => msg
  end.

(** The handler [except Exception as e] that closes [start_battle]. *)
Definition battle_handler (e : exn) : exn :=
  EHTTP (mkHTTPException 500 ("Error during battle: " ++ exn_str e) []).

(** [SELECT id, user_id, ships FROM user_fleets WHERE id = %s] with
    [str(fleet_id)], then [fetchone()]. *)
Definition select_fleet (conn : store) (fleet : UUID) : option fleet_row :=
  fetchone (λ r, bool_decide (str_UUID (fleet_id_col r) = str_UUID fleet))
    (user_fleets conn).

(** The body of the [try] of [start_battle]. [uuid4] is the identifier
    that the call of [uuid4()] draws. *)
Definition start_battle_body (conn : store) (attacker_fleet_id' defender_fleet_id' : UUID)
    (current_user : TokenData) (uuid4 : UUID) : res BattleResult :=
  match select_fleet conn attacker_fleet_id' with
  | None => Raise (EHTTP (mkHTTPException 404 "Attacker fleet not found" []))
  | Some attacker_fleet =>
    if bool_decide (str_UUID (fleet_user_id_col attacker_fleet) ≠ td_id current_user)
    then Raise (EHTTP (mkHTTPException 403 "You do not own the attacker fleet" []))
    else
    match select_fleet conn defender_fleet_id' with
    | None => Raise (EHTTP (mkHTTPException 404 "Defender fleet not found" []))
    | Some defender_fleet =>
      if bool_decide (str_UUID (fleet_user_id_col defender_fleet) = td_id current_user)
      then Raise (EHTTP (mkHTTPException 400 "Cannot attack your own fleet" []))
      else
      let attacker_ships := ships_col attacker_fleet in
      let defender_ships := ships_col defender_fleet in
      let attacker_total := sum_values attacker_ships in
      let defender_total := sum_values defender_ships in
      let '(winner, loser, outcome) :=
        if (attacker_total >? defender_total)%Z then
          (fleet_user_id_col attacker_fleet, fleet_user_id_col defender_fleet,
           "Attacker wins")
        else if (defender_total >? attacker_total)%Z then
          (fleet_user_id_col defender_fleet, fleet_user_id_col attacker_fleet,
           "Defender wins")
        else
          (fleet_user_id_col defender_fleet, fleet_user_id_col attacker_fleet,
           "Tie - Defender wins by default") in
      let battle := uuid4 in
      let report' := battle_report battle outcome attacker_total defender_total in
      Ok {| battle_id := battle;
            attacker_id := fleet_user_id_col attacker_fleet;
            defender_id := fleet_user_id_col defender_fleet;
            attacker_fleet_id := attacker_fleet_id';
            defender_fleet_id := defender_fleet_id';
            winner_id := winner;
            loser_id := loser;
            attacker_total_ships := attacker_total;
            defender_total_ships := defender_total;
            report := report' |}
    end
  end.

(** [start_battle]: the connection is opened before the [try]
    ([connect_to_db] raises or returns a connection, so [if not conn] is
    not taken); every exception raised inside the [try], the
    [HTTPException]s of the precondition checks included, reaches
    [except Exception]. Closing the connection in [finally] changes
    nothing that is observed here. *)
Definition start_battle (db : db_env) (attacker_fleet_id' defender_fleet_id' : UUID)
    (current_user : TokenData) (uuid4 : UUID) : res BattleResult :=
  conn ←! connect_to_db db;
  try_except
    (start_battle_body conn attacker_fleet_id' defender_fleet_id' current_user uuid4)
    battle_handler.
End user_battles.

(** The checks that precede the comparison: both fleets are found, the
    caller owns the attacker fleet and does not own the defender fleet. *)
Definition battle_ready (conn : store) (attacker_fleet defender_fleet : UUID)
    (current_user : TokenData) (a d : fleet_row) : Prop :=
  select_fleet conn attacker_fleet = Some a
  ∧ select_fleet conn defender_fleet = Some d
  ∧ str_UUID (fleet_user_id_col a) = td_id current_user
  ∧ str_UUID (fleet_user_id_col d) ≠ td_id current_user.

(** ** Session manager: [src/auth/endpoints.py] *)

(** [pwd_context.verify] of passlib: it returns a boolean, or raises (on
    a stored value that is no hash of the scheme, on a password that the
    scheme does not take). *)
Class PasswordHasher := {
  pwd_context_verify : string → string → res bool
}.

(** What [jwt.decode] of python-jose checks in a claim set with the keys
    of this program, once the signature is verified: [sub] is a string,
    [exp] is an integer and not before the clock. *)
Definition wire_keys : gset string := {[ "id"; "sub"; "is_admin"; "exp" ]}.

Definition jose_accepts (claims : gmap string jvalue) (now : Z) : bool :=
  bool_decide (dom claims ⊆ wire_keys)
  && match claims !! "sub" with
     | Some (JStr _) => true
     | _ => false
     end
  && match claims !! "exp" with
     | Some (JNum exp) => bool_decide (now ≤ exp)%Z
     | _ => false
     end.

(** [jwt.encode] and [jwt.decode] of python-jose, for the one algorithm
    [ALGORITHM] of the program. [token] is the set of strings handed to
    [jwt.decode]; a [JWTError] is [None]; the clock that [jwt.decode]
    reads is its last argument, in seconds. The two laws are the
    library's contract: a claim set signed with a key decodes under that
    key to itself when [jose_accepts] it, and never to another one. *)
Class TokenCodec := {
  token : Type;
  jwt_encode : gmap string jvalue → string → token;
  jwt_decode : token → string → Z → option (gmap string jvalue);
  jwt_decode_encode claims key now :
    jose_accepts claims now = true →
    jwt_decode (jwt_encode claims key) key now = Some claims;
  jwt_decode_encode_inv claims key now claims' :
    jwt_decode (jwt_encode claims key) key now = Some claims' →
    claims' = claims
}.

Record UserLogin := mkUserLogin {
  form_username : string;
  form_password : string
}.

Definition ACCESS_TOKEN_EXPIRE_MINUTES : Z := 30.
Definition REFRESH_TOKEN_EXPIRE_DAYS : Z := 7.

Definition credentials_exception : HTTPException :=
  mkHTTPException 401 "Could not validate credentials"
    [("WWW-Authenticate", "Bearer")].

(** [TokenData(id=..., username=..., is_admin=...)]: pydantic takes a
    string, a string and a boolean. A value of another JSON type is a
    [ValidationError] here (the coercions some pydantic versions apply
    are left out); no handler of [get_current_user] catches it. *)
Definition TokenData_init (user_id username is_admin : jvalue) : res TokenData :=
  match user_id, username, is_admin with
  | JStr i, JStr u, JBool b => Ok (mkTokenData i u b)
  | _, _, _ => Raise (EOther "ValidationError")
  end.

Section auth.
Context {hasher : PasswordHasher} {codec : TokenCodec}.
(** The signing keys read from the environment when the module loads. *)
Variables SECRET_KEY REFRESH_SECRET_KEY : string.

(** The response model [Token]. *)
Record Token := mkToken {
  tok_access_token : token;
  tok_refresh_token : token;
  tok_token_type : string
}.

Definition verify_password (plain hashed : string) : res bool :=
  pwd_context_verify plain hashed.

(** [now] is the reading of [datetime.utcnow()], in seconds; [expires_delta]
    is in seconds, and [expires_delta or ...] skips a zero delta. *)
Definition create_access_token (data : gmap string jvalue)
    (expires_delta : option Z) (now : Z) : token :=
  let to_encode := data in
  let delta :=
    match expires_delta with
    | Some d => if bool_decide (d = 0) then ACCESS_TOKEN_EXPIRE_MINUTES * 60 else d
    | None => ACCESS_TOKEN_EXPIRE_MINUTES * 60
    end in
  let expire := now + delta in
  jwt_encode (<["exp" := JNum expire]> to_encode) SECRET_KEY.

Definition create_refresh_token (data : gmap string jvalue) (now : Z) : token :=
  let to_encode := data in
  let expire := now + REFRESH_TOKEN_EXPIRE_DAYS * 86400 in
  jwt_encode (<["exp" := JNum expire]> to_encode) REFRESH_SECRET_KEY.

(** [connect_to_db] raises when it cannot connect and otherwise returns
    a connection object, so the branch [if not conn: return None] is
    not taken. *)
Definition get_user_by_username (db : db_env) (username : string)
    : res (option user_row) :=
  conn ←! connect_to_db db;
  Ok (fetchone (λ r, bool_decide (username_col r = username)) (users conn)).

Definition get_current_user (tok : token) (now : Z) : res TokenData :=
  match jwt_decode tok SECRET_KEY now with
  | None => Raise (EHTTP credentials_exception)
  | Some payload =>
    let user_id := dict_get payload "id" in
    let username := dict_get payload "sub" in
    let is_admin := dict_get payload "is_admin" in
    if negb (all [truthy user_id; truthy username; is_not_None is_admin])
    then Raise (EHTTP credentials_exception)
    else TokenData_init user_id username is_admin
  end.

Definition invalid_login : HTTPException :=
  mkHTTPException 401 "Invalid username or password" [].

(** The clock readings of one request are one instant [now]. In
    [user is None or not verify_password(...)] the password is verified
    only for a user that is found, and what [verify_password] raises is
    not caught. *)
Definition login (db : db_env) (form_data : UserLogin) (now : Z) : res Token :=
  user ←! get_user_by_username db (form_username form_data);
  match user with
  | None => Raise (EHTTP invalid_login)
  | Some user =>
    verified ←! verify_password (form_password form_data) (password_col user);
    if negb verified
    then Raise (EHTTP invalid_login)
    else
      let payload : gmap string jvalue :=
        {[ "id" := JStr (str_UUID (user_id_col user));
           "sub" := JStr (username_col user);
           "is_admin" := JBool (is_admin_col user) ]} in
      let access_token := create_access_token payload None now in
      let refresh_token := create_refresh_token payload now in
      Ok {| tok_access_token := access_token;
            tok_refresh_token := refresh_token;
            tok_token_type := "bearer" |}
  end.

Definition refresh_token (refresh_token' : token) (now : Z) : res Token :=
  match jwt_decode refresh_token' REFRESH_SECRET_KEY now with
  | None =>
      Raise (EHTTP (mkHTTPException 401 "Invalid or expired refresh token" []))
  | Some payload =>
    let user_id := dict_get payload "id" in
    let username := dict_get payload "sub" in
    let is_admin := dict_get payload "is_admin" in
    if negb (truthy username) || negb (truthy user_id)
    then Raise (EHTTP (mkHTTPException 401 "Invalid refresh token" []))
    else
      let claims : gmap string jvalue :=
        {[ "id" := user_id; "sub" := username; "is_admin" := is_admin ]} in
      let new_access_token := create_access_token claims None now in
      let new_refresh_token := create_refresh_token claims now in
      Ok {| tok_access_token := new_access_token;
            tok_refresh_token := new_refresh_token;
            tok_token_type := "bearer" |}
  end.
End auth.

Arguments Token {_}.
Arguments mkToken {_}.
Arguments tok_access_token {_}.
Arguments tok_refresh_token {_}.
Arguments tok_token_type {_}.

(** The claim set that [create_access_token] and [create_refresh_token]
    sign: the three claims and the expiry. *)
Definition signed_claims (user_id username is_admin : jvalue) (expire : Z)
    : gmap string jvalue :=
  <["exp" := JNum expire]>
    {[ "id" := user_id; "sub" := username; "is_admin" := is_admin ]}.

(** ** A reference instance of the libraries

    Signing is taken as perfect: a token is the claim set together with
    the key that signed it, or a string that is no token at all. *)
Inductive sym_token :=
  | Signed (claims : gmap string jvalue) (key : string)
  | Junk (raw : string).

Definition sym_decode (t : sym_token) (key : string) (now : Z)
    : option (gmap string jvalue) :=
  match t with
  | Signed claims key' =>
      if bool_decide (key' = key) && jose_accepts claims now
      then Some claims else None
  | Junk _ => None
  end.

#[program] Definition sym_codec : TokenCodec :=
  {| token := sym_token; jwt_encode := Signed; jwt_decode := sym_decode |}.
Next Obligation.
  intros claims key now Hacc. simpl.
  rewrite Hacc, bool_decide_eq_true_2; done.
Qed.
Next Obligation.
  intros claims key now claims'. simpl.
  destruct (_ && _); congruence.
Qed.

(** A hasher that stores the reversed password behind a fixed salt, and
    raises on a stored value that does not start with the salt. *)
Definition toy_hasher : PasswordHasher :=
  {| pwd_context_verify plain hashed :=
       if String.prefix "salt$" hashed
       then Ok (bool_decide (hashed = "salt$" ++ String.rev plain))
       else Raise (EOther "hash could not be identified") |}.

(** ** Accounts: the rest of [src/auth/endpoints.py] *)

(** [pwd_context.hash] of passlib: the second argument is the salt that
    the call draws. A hash verifies against its own password. *)
Class PasswordScheme {hasher : PasswordHasher} := {
  pwd_context_hash : string → string → string;
  pwd_context_verify_hash password salt :
    pwd_context_verify password (pwd_context_hash password salt) = Ok true
}.

Record UserRegister := mkUserRegister {
  reg_username : string;
  reg_email : string;
  reg_password : string
}.

Record UserUpdate := mkUserUpdate {
  upd_username : string;
  upd_email : string;
  upd_is_admin : bool
}.

(** The reply [{"message": ..., "user_id": ...}] of the two registrations. *)
Record Created := mkCreated {
  created_message : string;
  created_user_id : UUID
}.

(** [raise HTTPException(status_code=500, detail=f"<prefix>{str(e)}")]. *)
Definition wrap_500 (http_str : HTTPException → string) (prefix : string)
    (e : exn) : exn :=
  EHTTP (mkHTTPException 500 (prefix ++ exn_str http_str e) []).

(** [INSERT INTO users ...]: the new row comes last. *)
Definition insert_user (conn : store) (row : user_row) : store :=
  mkStore (users conn ++ [row]) (user_fleets conn).

(** [SELECT id FROM users WHERE id = %s] with a [UUID], then [fetchone()]. *)
Definition select_user_by_id (conn : store) (u : UUID) : option user_row :=
  fetchone (λ r, bool_decide (str_UUID (user_id_col r) = str_UUID u)) (users conn).

(** [UPDATE users SET username, email, is_admin WHERE id = %s]. *)
Definition update_users (conn : store) (u : UUID) (user_data : UserUpdate) : store :=
  mkStore
    (map (λ r, if bool_decide (str_UUID (user_id_col r) = str_UUID u)
               then mkUserRow (user_id_col r) (upd_username user_data)
                      (upd_email user_data) (password_col r) (upd_is_admin user_data)
               else r)
       (users conn))
    (user_fleets conn).

(** [DELETE FROM users WHERE id = %s]. *)
Definition delete_users (conn : store) (u : UUID) : store :=
  mkStore
    (filter (λ r, str_UUID (user_id_col r) ≠ str_UUID u) (users conn))
    (user_fleets conn).

(** The functions below change the store: they return the database they
    leave behind beside their outcome. An exception raised before
    [conn.commit()] leaves the database as it was. The schema is not among
    the sources: a table is the list of its rows, and no statement fails
    on a constraint. *)
Section accounts.
Context {hasher : PasswordHasher} {scheme : PasswordScheme}.
(** [str(e)] of an [HTTPException], and [UUID(s)], [None] for a
    [ValueError]. *)
Variable http_str : HTTPException → string.
Variable UUID_of_str : string → option UUID.

Definition hash_password (password salt : string) : string :=
  pwd_context_hash password salt.

(** [salt] is the salt that [hash_password] draws, [new_user_id] the id
    that the database gives the new row ([RETURNING id]). *)
Definition register_user (db : db_env) (user_data : UserRegister)
    (salt : string) (new_user_id : UUID) : db_env * res Created :=
  match connect_to_db db with
  | Raise e => (db, Raise e)
  | Ok conn =>
    let '(conn', outcome) :=
      match fetchone (λ r, bool_decide (username_col r = reg_username user_data))
              (users conn) with
      | Some _ =>
          (conn, Raise (EHTTP (mkHTTPException 400 "Username already taken" [])))
      | None =>
        match fetchone (λ r, bool_decide (email_col r = reg_email user_data))
                (users conn) with
        | Some _ =>
            (conn, Raise (EHTTP (mkHTTPException 400 "Email already in use" [])))
        | None =>
          let hashed_pw := hash_password (reg_password user_data) salt in
          (insert_user conn
             (mkUserRow new_user_id (reg_username user_data)
                (reg_email user_data) hashed_pw false),
           Ok (mkCreated "User created successfully" new_user_id))
        end
      end in
    (DbUp conn', try_except outcome (wrap_500 http_str "Error creating user: "))
  end.

Definition register_admin (db : db_env) (admin_data : UserRegister)
    (salt : string) (new_user_id : UUID) : db_env * res Created :=
  match connect_to_db db with
  | Raise e => (db, Raise e)
  | Ok conn =>
    let '(conn', outcome) :=
      match fetchone (λ r, bool_decide (username_col r = reg_username admin_data))
              (users conn) with
      | Some _ =>
          (conn, Raise (EHTTP (mkHTTPException 400 "Username already taken" [])))
      | None =>
        match fetchone (λ r, bool_decide (email_col r = reg_email admin_data))
                (users conn) with
        | Some _ =>
            (conn, Raise (EHTTP (mkHTTPException 400 "Email already in use" [])))
        | None =>
          let hashed_pw := hash_password (reg_password admin_data) salt in
          (insert_user conn
             (mkUserRow new_user_id (reg_username admin_data)
                (reg_email admin_data) hashed_pw true),
           Ok (mkCreated "Admin user created successfully" new_user_id))
        end
      end in
    (DbUp conn', try_except outcome (wrap_500 http_str "Error creating admin: "))
  end.

(** [update_user] of [src/auth/endpoints.py]: the id is parsed, then the
    caller must be an admin, then the row must exist. *)
Definition update_user (db : db_env) (user_id : string) (user_data : UserUpdate)
    (current_user : TokenData) : db_env * res string :=
  match UUID_of_str user_id with
  | None => (db, Raise (EHTTP (mkHTTPException 400 "Invalid user ID format" [])))
  | Some user_uuid =>
    if negb (td_is_admin current_user)
    then (db, Raise (EHTTP (mkHTTPException 403 "Only admins can update user data" [])))
    else
    match connect_to_db db with
    | Raise e => (db, Raise e)
    | Ok conn =>
      let '(conn', outcome) :=
        match select_user_by_id conn user_uuid with
        | None => (conn, Raise (EHTTP (mkHTTPException 404 "User not found" [])))
        | Some _ => (update_users conn user_uuid user_data, Ok tt)
        end in
      (DbUp conn',
       _ ←! try_except outcome (wrap_500 http_str "Error updating user: ");
       Ok "User updated successfully")
    end
  end.

(** [delete_user] of [src/auth/endpoints.py]. *)
Definition delete_user (db : db_env) (user_id : string)
    (current_user : TokenData) : db_env * res string :=
  match UUID_of_str user_id with
  | None => (db, Raise (EHTTP (mkHTTPException 400 "Invalid user ID format" [])))
  | Some user_uuid =>
    if negb (td_is_admin current_user)
    then (db, Raise (EHTTP (mkHTTPException 403 "Only admins can delete users" [])))
    else
    match connect_to_db db with
    | Raise e => (db, Raise e)
    | Ok conn =>
      let '(conn', outcome) :=
        match select_user_by_id conn user_uuid with
        | None => (conn, Raise (EHTTP (mkHTTPException 404 "User not found" [])))
        | Some _ => (delete_users conn user_uuid, Ok tt)
        end in
      (DbUp conn',
       _ ←! try_except outcome (wrap_500 http_str "Error deleting user: ");
       Ok "User deleted successfully")
    end
  end.
End accounts.

(** ** User queries: [src/users/endpoints.py] *)

(** The four columns id, username, email, is_admin that the queries by
    id select. *)
Record user_info := mkUserInfo {
  info_id : UUID;
  info_username : string;
  info_email : string;
  info_is_admin : bool
}.

Definition info_of_row (r : user_row) : user_info :=
  mkUserInfo (user_id_col r) (username_col r) (email_col r) (is_admin_col r).

(** The reply [{"id": ..., "username": ..., "email": ..., "is_admin": ...}]. *)
Record UserView := mkUserView {
  view_id : string;
  view_username : string;
  view_email : string;
  view_is_admin : bool
}.

Definition view_of_info (user : user_info) : UserView :=
  mkUserView (str_UUID (info_id user)) (info_username user) (info_email user)
    (info_is_admin user).

Module Users.
Section users.
Variable http_str : HTTPException → string.
Variable UUID_of_str : string → option UUID.

Definition read_users_me (db : db_env) (current_user : TokenData) : res UserView :=
  user ←! get_user_by_username db (td_username current_user);
  match user with
  | Some user =>
      Ok (mkUserView (str_UUID (user_id_col user)) (username_col user)
            (email_col user) (is_admin_col user))
  | None => Raise (EHTTP (mkHTTPException 404 "User not found" []))
  end.

(** The handler of the query sets [user = None]; no query of this model
    raises. *)
Definition get_user_by_id (db : db_env) (user_id : string) : res (option user_info) :=
  match UUID_of_str user_id with
  | None => Raise (EHTTP (mkHTTPException 400 "Invalid user ID format" []))
  | Some user_uuid =>
      conn ←! connect_to_db db;
      Ok (info_of_row <$> select_user_by_id conn user_uuid)
  end.

Definition read_all_users (db : db_env) (current_user : TokenData)
    : res (list UserView) :=
  if negb (td_is_admin current_user)
  then Raise (EHTTP (mkHTTPException 403 "Unauthorized to fetch all users" []))
  else
    conn ←! connect_to_db db;
    Ok (map (λ user, view_of_info (info_of_row user)) (users conn)).

Definition read_user (db : db_env) (user_id : string) (current_user : TokenData)
    : res UserView :=
  user ←! get_user_by_id db user_id;
  match user with
  | Some user =>
      if bool_decide (td_username current_user = info_username user)
         || td_is_admin current_user
      then Ok (view_of_info user)
      else Raise (EHTTP (mkHTTPException 403 "Unauthorized to view this user" []))
  | None => Raise (EHTTP (mkHTTPException 404 "User not found" []))
  end.

(** [update_user] of [src/users/endpoints.py]: the id arrives parsed. *)
Definition update_user (db : db_env) (user_id : UUID) (user_data : UserUpdate)
    (current_user : TokenData) : db_env * res string :=
  if negb (td_is_admin current_user)
  then (db, Raise (EHTTP (mkHTTPException 403 "Only admins can update users" [])))
  else
  match connect_to_db db with
  | Raise e => (db, Raise e)
  | Ok conn =>
    let '(conn', outcome) :=
      match select_user_by_id conn user_id with
      | None => (conn, Raise (EHTTP (mkHTTPException 404 "User not found" [])))
      | Some _ => (update_users conn user_id user_data, Ok tt)
      end in
    (DbUp conn',
     _ ←! try_except outcome (wrap_500 http_str "Error updating user: ");
     Ok "User updated successfully")
  end.

(** [delete_user] of [src/users/endpoints.py]: the admin check comes
    before the id is parsed. *)
Definition delete_user (db : db_env) (user_id : string)
    (current_user : TokenData) : db_env * res string :=
  if negb (td_is_admin current_user)
  then (db, Raise (EHTTP (mkHTTPException 403 "Only admins can delete users" [])))
  else
  match UUID_of_str user_id with
  | None => (db, Raise (EHTTP (mkHTTPException 400 "Invalid user ID format" [])))
  | Some user_uuid =>
    match connect_to_db db with
    | Raise e => (db, Raise e)
    | Ok conn =>
      let '(conn', outcome) :=
        match select_user_by_id conn user_uuid with
        | None => (conn, Raise (EHTTP (mkHTTPException 404 "User not found" [])))
        | Some _ => (delete_users conn user_uuid, Ok tt)
        end in
      (DbUp conn',
       _ ←! try_except outcome (wrap_500 http_str "Error deleting user: ");
       Ok "User deleted successfully")
    end
  end.
End users.
End Users.

(** ** The helpers of [src/database/database.py] *)

Module Database.
Section database.
Variable http_str : HTTPException → string.
Variable UUID_of_str : string → option UUID.

Definition get_user_by_id (db : db_env) (user_id : string) : res (option user_info) :=
  match UUID_of_str user_id with
  | None => Raise (EHTTP (mkHTTPException 400 "Invalid user ID format" []))
  | Some user_uuid =>
      conn ←! connect_to_db db;
      Ok (info_of_row <$> select_user_by_id conn user_uuid)
  end.

Definition get_all_users (db : db_env) : res (list user_info) :=
  conn ←! connect_to_db db;
  Ok (map info_of_row (users conn)).

(** The password is stored as it is given. *)
Definition create_user (db : db_env) (username email password : string)
    (is_admin : bool) (new_user_id : UUID) : db_env * res UUID :=
  match connect_to_db db with
  | Raise e => (db, Raise e)
  | Ok conn =>
      (DbUp (insert_user conn (mkUserRow new_user_id username email password is_admin)),
       Ok new_user_id)
  end.

(** No [return] follows [conn.commit()]: the call goes on to the
    [raise] that ends the function. *)
Definition update_user (db : db_env) (user_id username email : string)
    (is_admin : bool) : db_env * res unit :=
  match UUID_of_str user_id with
  | None => (db, Raise (EHTTP (mkHTTPException 400 "Invalid user ID format" [])))
  | Some user_uuid =>
    match connect_to_db db with
    | Raise e => (db, Raise e)
    | Ok conn =>
        (DbUp (update_users conn user_uuid (mkUserUpdate username email is_admin)),
         Raise (EHTTP (mkHTTPException 500 "Database connection error" [])))
    end
  end.

Definition delete_user (db : db_env) (user_id : string) : db_env * res unit :=
  match UUID_of_str user_id with
  | None => (db, Raise (EHTTP (mkHTTPException 400 "Invalid user ID format" [])))
  | Some user_uuid =>
    match connect_to_db db with
    | Raise e => (db, Raise e)
    | Ok conn =>
        (DbUp (delete_users conn user_uuid),
         Raise (EHTTP (mkHTTPException 500 "Database connection error" [])))
    end
  end.
End database.
End Database.

(** ** The battle between users: [src/battles/endpoints.py] *)

(** The reply of [create_battle] (the model [BattleResult] of that file). *)
Record BattleReply := mkBattleReply {
  reply_battle_id : UUID;
  user_1 : string;
  user_2 : string;
  winner : string;
  reply_report : string
}.

(** The row that [create_battle] writes to [battles]. No function here
    reads that table: the row is returned beside the reply. *)
Record battles_row := mkBattlesRow {
  battles_id : UUID;
  user_1_id : UUID;
  user_2_id : UUID;
  battles_winner_id : option UUID;
  battles_report : string
}.

Module Battles.
Section battles.
Variable http_str : HTTPException → string.
Variable UUID_of_str : string → option UUID.

(** [fleet1] and [fleet2] are the two numbers that the database draws,
    [uuid4] the identifier of the battle. A user found by
    [get_user_by_id] is subscripted, which raises a [TypeError] on
    [None]. *)
Definition create_battle (db : db_env) (opponent_id : UUID)
    (current_user : TokenData) (fleet1 fleet2 : Z) (uuid4 : UUID)
    : res (BattleReply * battles_row) :=
  conn ←! connect_to_db db;
  try_except
    (user1 ←! Database.get_user_by_id UUID_of_str db (td_id current_user);
     user2 ←! Database.get_user_by_id UUID_of_str db (str_UUID opponent_id);
     match user2 with
     | None => Raise (EHTTP (mkHTTPException 404 "Opponent not found" []))
     | Some user2 =>
       if bool_decide (str_UUID opponent_id = td_id current_user)
       then Raise (EHTTP (mkHTTPException 400 "Cannot battle yourself" []))
       else
       match user1 with
       | None => Raise (EOther "'NoneType' object is not subscriptable")
       | Some user1 =>
         let '(winner_id, winner_name) :=
           if (fleet1 >? fleet2)%Z then (Some (info_id user1), info_username user1)
           else if (fleet2 >? fleet1)%Z then (Some (info_id user2), info_username user2)
           else (None, "Draw") in
         let battle := uuid4 in
         let report' :=
           info_username user1 ++ " (Fleet: " ++ pretty fleet1 ++ ") vs "
             ++ info_username user2 ++ " (Fleet: " ++ pretty fleet2 ++ ") — "
             ++ (if winner_id is Some _ then "Winner: " ++ winner_name
                 else "It was a draw!") in
         Ok (mkBattleReply battle (info_username user1) (info_username user2)
               winner_name report',
             mkBattlesRow battle (info_id user1) (info_id user2) winner_id report')
       end
     end)
    (wrap_500 http_str "Battle error: ").
End battles.
End Battles.

(** Both users are found and the opponent is not the caller. *)
Definition users_ready (UUID_of_str : string → option UUID) (s : store) (opponent_id : UUID) (cu : TokenData)
    (row1 row2 : user_row) : Prop :=
  (∃ u1, UUID_of_str (td_id cu) = Some u1 ∧ select_user_by_id s u1 = Some row1)
  ∧ (∃ u2, UUID_of_str (str_UUID opponent_id) = Some u2
           ∧ select_user_by_id s u2 = Some row2)
  ∧ str_UUID opponent_id ≠ td_id cu.


(** ** Fleet removal: [delete_user_fleet] of [src/user_fleets/endpoints.py] *)

(** [DELETE FROM user_fleets WHERE id = %s] with [str(fleet_id)]. *)
Definition delete_fleets (conn : store) (fleet : UUID) : store :=
  mkStore (users conn)
    (filter (λ r, str_UUID (fleet_id_col r) ≠ str_UUID fleet) (user_fleets conn)).

Module UserFleets.
Section user_fleets.
Variable http_str : HTTPException → string.

Definition delete_user_fleet (db : db_env) (user_fleet_id : UUID)
    (current_user : TokenData) : db_env * res string :=
  match connect_to_db db with
  | Raise e => (db, Raise e)
  | Ok conn =>
    let '(conn', outcome) :=
      match select_fleet conn user_fleet_id with
      | None => (conn, Raise (EHTTP (mkHTTPException 404 "User fleet not found" [])))
      | Some user_fleet =>
        if bool_decide (str_UUID (fleet_user_id_col user_fleet) ≠ td_id current_user)
        then (conn, Raise (EHTTP (mkHTTPException 403
                "Unauthorized to delete this fleet" [])))
        else (delete_fleets conn user_fleet_id, Ok tt)
      end in
    (DbUp conn',
     _ ←! try_except outcome (wrap_500 http_str "Error deleting user fleet: ");
     Ok "User fleet deleted successfully")
  end.
End user_fleets.
End UserFleets.

(** Concrete inputs used to exercise the statements below. *)
Module Sample.
(** [str(e)] as [f"{status_code}: {detail}"]. *)
Definition http_str (h : HTTPException) : string :=
  pretty (status_code h) ++ ": " ++ detail h.

Definition alice : UUID := mkUUID 10.
Definition bob : UUID := mkUUID 11.
Definition caller_alice : TokenData := mkTokenData (str_UUID alice) "alice" false.

Definition fleets : list fleet_row :=
  [ mkFleetRow (mkUUID 1) alice {[ "x" := 5 ]};
    mkFleetRow (mkUUID 2) bob {[ "x" := 3; "y" := 2 ]};
    mkFleetRow (mkUUID 3) alice ∅;
    mkFleetRow (mkUUID 4) bob ∅;
    mkFleetRow (mkUUID 5) alice {[ "x" := 10 ]} ].

Definition fleet (n : N) (owner : UUID) (ships : gmap string Z) : fleet_row :=
  mkFleetRow (mkUUID n) owner ships.

(** Both passwords are "pw"; the second user was registered with the empty
    username. *)
Definition alice_row : user_row :=
  mkUserRow alice "alice" "alice@example.org" "salt$wp" false.
Definition bob_row : user_row :=
  mkUserRow bob "" "bob@example.org" "salt$wp" true.

Definition accounts : list user_row := [ alice_row; bob_row ].

Definition db : store := mkStore accounts fleets.

Definition login_alice (password : string) (now : Z) : res Token :=
  login (hasher := toy_hasher) (codec := sym_codec) "k-access" "k-refresh"
    (DbUp db) (mkUserLogin "alice" password) now.

(** Claim sets signed by the reference codec. *)
Definition claims_no_name : gmap string jvalue :=
  signed_claims (JStr "7") (JStr "") (JBool false) 1000.
Definition claims_guest : gmap string jvalue :=
  signed_claims (JStr "7") (JStr "guest") (JBool false) 1000.
Definition claims_no_admin : gmap string jvalue :=
  <["exp" := JNum 1000]> {[ "id" := JStr "7"; "sub" := JStr "guest" ]}.
Definition claims_no_admin_no_name : gmap string jvalue :=
  <["exp" := JNum 1000]> {[ "id" := JStr "7"; "sub" := JStr "" ]}.
End Sample.

(** ** Repeated refreshes *)

Section sessions.
Context {codec : TokenCodec}.
Variables SECRET_KEY REFRESH_SECRET_KEY : string.

(** The pair of tokens signed at [now] for three claims. *)
Definition pair_signed (user_id username is_admin : jvalue) (now : Z) : Token :=
  mkToken
    (jwt_encode (signed_claims user_id username is_admin (now + 1800)) SECRET_KEY)
    (jwt_encode (signed_claims user_id username is_admin (now + 604800))
       REFRESH_SECRET_KEY)
    "bearer".

(** The client calls [refresh_token] at each of [times] in turn, each
    time with the refresh token of the pair it holds. *)
Fixpoint refresh_chain (pair : Token) (times : list Z) : res Token :=
  match times with
  | [] => Ok pair
  | now :: later =>
      pair' ←! refresh_token SECRET_KEY REFRESH_SECRET_KEY (tok_refresh_token pair) now;
      refresh_chain pair' later
  end.
End sessions.

(** No call of [times] comes more than seven days after the call before
    it, the first one after [start]. *)
Fixpoint within_a_week (start : Z) (times : list Z) : Prop :=
  match times with
  | [] => True
  | now :: later => (now ≤ start + 604800)%Z ∧ within_a_week now later
  end.

(** Further inputs: a hasher that can hash, and a reader of the
    hexadecimal form of a [UUID]. *)
Module Sample2.
Import Sample.

#[program] Definition toy_scheme : PasswordScheme (hasher := toy_hasher) :=
  {| pwd_context_hash password salt := "salt$" ++ String.rev password |}.
Next Obligation.
  intros password salt. cbn.
  replace (String.prefix "salt$" ("salt$" ++ String.rev password)) with true
    by (by destruct (String.rev password)).
  by rewrite bool_decide_eq_true_2.
Qed.

(** The value of a hexadecimal digit: the number that [hex_digit] writes
    as [c]. *)
Definition hex_value (c : ascii) : option N :=
  List.find (λ n, bool_decide (hex_digit n = c)) (N.of_nat <$> seq 0 16).

Fixpoint hex_number (s : string) (acc : N) : option N :=
  match s with
  | EmptyString => Some acc
  | String c s' =>
      match hex_value c with
      | Some v => hex_number s' (16 * acc + v)%N
      | None => None
      end
  end.

Fixpoint drop_hyphens (s : string) : string :=
  match s with
  | EmptyString => EmptyString
  | String c s' =>
      if bool_decide (c = "-"%char) then drop_hyphens s'
      else String c (drop_hyphens s')
  end.

(** Reads 32 lower-case hexadecimal digits, hyphens skipped. *)
Definition parse_uuid (s : string) : option UUID :=
  let h := drop_hyphens s in
  if bool_decide (String.length h = 32%nat) then mkUUID <$> hex_number h 0%N
  else None.

Definition carol : UUID := mkUUID 12.
Definition root : UUID := mkUUID 13.
Definition root_row : user_row :=
  mkUserRow root "root" "root@example.org" "salt$toor" true.
Definition caller_root : TokenData := mkTokenData (str_UUID root) "root" true.
Definition caller_bob : TokenData := mkTokenData (str_UUID bob) "bobby" false.

(** A store in which every username is set. *)
Definition db2 : store :=
  mkStore
    [ alice_row; mkUserRow bob "bobby" "bob@example.org" "salt$wp" false; root_row ]
    fleets.

Definition carol_form : UserRegister :=
  mkUserRegister "carol" "carol@example.org" "secret".

(** A row whose password column holds the password as it was given, as
    [create_user] of the database helpers writes it. *)
Definition dave_row : user_row :=
  mkUserRow (mkUUID 14) "dave" "dave@example.org" "secret" false.
Definition db3 : store := mkStore [ alice_row; dave_row ] [].
Definition carol_row (is_admin : bool) : user_row :=
  mkUserRow carol "carol" "carol@example.org" "salt$terces" is_admin.
Definition caller_carol : TokenData := mkTokenData (str_UUID carol) "carol" false.

Definition bobby_row : user_row :=
  mkUserRow bob "bobby" "bob@example.org" "salt$wp" false.
Definition robert : UserUpdate := mkUserUpdate "robert" "rob@example.org" true.

(** Alice attacks Bob with ten ships against five, and Bob attacks Alice
    with the same two fleets. *)
Definition alice_attacks : BattleResult :=
  mkBattleResult (mkUUID 77) alice bob (mkUUID 5) (mkUUID 2) alice bob 10 5
    (battle_report (mkUUID 77) "Attacker wins" 10 5).
Definition bob_attacks : BattleResult :=
  mkBattleResult (mkUUID 78) bob alice (mkUUID 2) (mkUUID 5) alice bob 5 10
    (battle_report (mkUUID 78) "Defender wins" 5 10).
Definition empty_attack : BattleResult :=
  mkBattleResult (mkUUID 77) alice bob (mkUUID 3) (mkUUID 2) bob alice 0 5
    (battle_report (mkUUID 77) "Defender wins" 0 5).
End Sample2.

(** * Properties *)

(** ** Ship totals *)

Lemma sum_values_empty : sum_values ∅ = 0.
Proof. reflexivity. Qed.

Lemma sum_values_insert (ships : gmap string Z) (k : string) (count : Z) :
  ships !! k = None →
  sum_values (<[k := count]> ships) = sum_values ships + count.
Proof.
  intros Hk. unfold sum_values.
  rewrite map_fold_insert_L; [done | intros; lia | done].
Qed.

Lemma sum_values_singleton (k : string) (count : Z) :
  sum_values {[ k := count ]} = count.
Proof.
  rewrite <- insert_empty, sum_values_insert by apply lookup_empty.
  rewrite sum_values_empty. lia.
Qed.

Lemma string_app_assoc (s1 s2 s3 : string) :
  (s1 ++ s2) ++ s3 = s1 ++ (s2 ++ s3).
Proof.
  induction s1 as [|c s1 IH]; [done|].
  change (String c ((s1 ++ s2) ++ s3) = String c (s1 ++ (s2 ++ s3))).
  by rewrite IH.
Qed.

(** ** Battle resolver *)

Section user_battles_properties.
Variable http_str : HTTPException → string.

Lemma battle_ready_owners_differ conn af df cu a d :
  battle_ready conn af df cu a d →
  fleet_user_id_col a ≠ fleet_user_id_col d.
Proof. intros (_ & _ & Ha & Hd) Heq. rewrite Heq in Ha. done. Qed.

(** Past the checks, the body runs to the comparison of the totals. *)
Lemma start_battle_body_ready conn af df cu u a d :
  battle_ready conn af df cu a d →
  start_battle_body conn af df cu u =
    let attacker_total := sum_values (ships_col a) in
    let defender_total := sum_values (ships_col d) in
    let '(winner, loser, outcome) :=
      if (attacker_total >? defender_total)%Z then
        (fleet_user_id_col a, fleet_user_id_col d, "Attacker wins")
      else if (defender_total >? attacker_total)%Z then
        (fleet_user_id_col d, fleet_user_id_col a, "Defender wins")
      else
        (fleet_user_id_col d, fleet_user_id_col a,
         "Tie - Defender wins by default") in
    Ok (mkBattleResult u (fleet_user_id_col a) (fleet_user_id_col d) af df
          winner loser attacker_total defender_total
          (battle_report u outcome attacker_total defender_total)).
Proof.
  intros (Ha & Hd & Hown & Hother). unfold start_battle_body.
  rewrite Ha, Hd.
  rewrite bool_decide_eq_false_2 by (intros Hne; by apply Hne).
  rewrite bool_decide_eq_false_2 by done.
  reflexivity.
Qed.

(** A successful call went through every check. *)
Lemma start_battle_body_Ok_ready conn af df cu u r :
  start_battle_body conn af df cu u = Ok r →
  ∃ a d, battle_ready conn af df cu a d.
Proof.
  unfold start_battle_body, battle_ready. intros Hr.
  destruct (select_fleet conn af) as [a|]; [|done].
  case_bool_decide as Hown; [done|].
  destruct (select_fleet conn df) as [d|]; [|done].
  case_bool_decide as Hother; [done|].
  exists a, d. by split_and!.
Qed.

Lemma start_battle_up s af df cu u :
  start_battle http_str (DbUp s) af df cu u =
  try_except (start_battle_body s af df cu u) (battle_handler http_str).
Proof. reflexivity. Qed.

(** Whatever [start_battle] raises is an [HTTPException] of status 500:
    the two of [connect_to_db], and the one the handler builds. *)
Lemma start_battle_raises_500 db af df cu u e :
  start_battle http_str db af df cu u = Raise e →
  ∃ text, e = EHTTP (mkHTTPException 500 text []).
Proof.
  destruct db as [|msg|s]; simpl.
  - intros [= <-]. eauto.
  - intros [= <-]. eauto.
  - rewrite start_battle_up. unfold try_except, battle_handler.
    destruct (start_battle_body _ _ _ _ _); intros [= <-]. eauto.
Qed.

(** C1. When the totals of the two fleets are equal (two empty fleets
    included), a battle that passes its checks returns the defender
    fleet's owner as [winner_id] and the attacker fleet's owner as
    [loser_id], never the reverse, and its report, given here character
    by character, carries the label "Tie - Defender wins by default". *)
Theorem tie_defender_wins s af df cu u a d :
  battle_ready s af df cu a d →
  sum_values (ships_col a) = sum_values (ships_col d) →
  ∃ r, start_battle http_str (DbUp s) af df cu u = Ok r
    ∧ winner_id r = fleet_user_id_col d
    ∧ loser_id r = fleet_user_id_col a
    ∧ winner_id r ≠ fleet_user_id_col a
    ∧ attacker_id r = fleet_user_id_col a
    ∧ defender_id r = fleet_user_id_col d
    ∧ attacker_total_ships r = sum_values (ships_col a)
    ∧ defender_total_ships r = sum_values (ships_col d)
    ∧ report r =
        "Battle ID: " ++ str_UUID u ++ nl
          ++ "Tie - Defender wins by default" ++ "!" ++ nl
          ++ "Attacker ships: " ++ pretty (sum_values (ships_col a)) ++ nl
          ++ "Defender ships: " ++ pretty (sum_values (ships_col d))
    ∧ ∃ before after,
        report r = before ++ "Tie - Defender wins by default" ++ after.
Proof.
  intros Hready Htie.
  pose proof (battle_ready_owners_differ _ _ _ _ _ _ Hready) as Hneq.
  rewrite start_battle_up, (start_battle_body_ready _ _ _ _ _ _ _ Hready).
  cbv zeta. rewrite Htie.
  rewrite Z.gtb_ltb, Z.ltb_irrefl.
  eexists. split; [reflexivity|].
  cbn [winner_id loser_id attacker_id defender_id attacker_total_ships
       defender_total_ships report].
  split_and!; try done; try (by intros Heq; apply Hneq).
  exists ("Battle ID: " ++ str_UUID u ++ nl),
    ("!" ++ nl ++ "Attacker ships: " ++ pretty (sum_values (ships_col d)) ++ nl
       ++ "Defender ships: " ++ pretty (sum_values (ships_col d))).
  unfold battle_report. by rewrite !string_app_assoc.
Qed.


(** C10. In every battle result returned, the attacker and the defender
    are the owners of the two fleets, winner and loser are these two
    owners in one order or the other, and the winner is not the loser. *)
Theorem outcome_names_both_owners db af df cu u r :
  start_battle http_str db af df cu u = Ok r →
  ∃ s a d, db = DbUp s
    ∧ select_fleet s af = Some a
    ∧ select_fleet s df = Some d
    ∧ attacker_id r = fleet_user_id_col a
    ∧ defender_id r = fleet_user_id_col d
    ∧ (winner_id r = attacker_id r ∧ loser_id r = defender_id r
       ∨ winner_id r = defender_id r ∧ loser_id r = attacker_id r)
    ∧ winner_id r ≠ loser_id r.
Proof.
  destruct db as [|msg|s]; [done..|].
  rewrite start_battle_up. unfold try_except.
  destruct (start_battle_body s af df cu u) as [r'|] eqn:Hbody; [|done].
  intros [= ->].
  destruct (start_battle_body_Ok_ready _ _ _ _ _ _ Hbody) as (a & d & Hready).
  pose proof (battle_ready_owners_differ _ _ _ _ _ _ Hready) as Hneq.
  rewrite (start_battle_body_ready _ _ _ _ _ _ _ Hready) in Hbody.
  destruct Hready as (Ha & Hd & _ & _).
  exists s, a, d. cbv zeta in Hbody.
  destruct (_ >? _)%Z; [|destruct (_ >? _)%Z];
    injection Hbody as <-; simpl; split_and!; auto.
Qed.

(** C2. A missing defender fleet and an attacker fleet of another owner
    do not reach the caller as 404 and 403: both exceptions are raised
    inside the [try], caught by [except Exception] and replaced by an
    [HTTPException] of status 500. *)
Theorem precondition_errors_become_500 s af df cu u a :
  select_fleet s af = Some a →
  (str_UUID (fleet_user_id_col a) ≠ td_id cu →
   start_battle http_str (DbUp s) af df cu u =
     Raise (battle_handler http_str
       (EHTTP (mkHTTPException 403 "You do not own the attacker fleet" []))))
  ∧ (str_UUID (fleet_user_id_col a) = td_id cu →
     select_fleet s df = None →
     start_battle http_str (DbUp s) af df cu u =
       Raise (battle_handler http_str
         (EHTTP (mkHTTPException 404 "Defender fleet not found" [])))).
Proof.
  intros Ha. rewrite start_battle_up. unfold start_battle_body. rewrite Ha.
  split.
  - intros Hne. by rewrite bool_decide_eq_true_2.
  - intros Hown Hd. rewrite bool_decide_eq_false_2 by (intros Hne; by apply Hne).
    by rewrite Hd.
Qed.

(** C3. An attack on a fleet of the attacker fleet's own owner is
    refused whatever the ships of the two fleets are, before any total
    is computed; the exception of status 400 is raised inside the [try]
    and reaches the caller as an [HTTPException] of status 500. *)
Theorem self_battle_becomes_500 s af df cu u a d :
  select_fleet s af = Some a →
  select_fleet s df = Some d →
  str_UUID (fleet_user_id_col a) = td_id cu →
  fleet_user_id_col d = fleet_user_id_col a →
  start_battle http_str (DbUp s) af df cu u =
    Raise (battle_handler http_str
      (EHTTP (mkHTTPException 400 "Cannot attack your own fleet" []))).
Proof.
  intros Ha Hd Hown Hsame.
  rewrite start_battle_up. unfold start_battle_body. rewrite Ha, Hd.
  rewrite bool_decide_eq_false_2 by (intros Hne; by apply Hne).
  rewrite bool_decide_eq_true_2 by (by rewrite Hsame).
  reflexivity.
Qed.
End user_battles_properties.

(** ** Session manager *)

Lemma str_UUID_nonempty (u : UUID) : str_UUID u ≠ "".
Proof.
  unfold str_UUID. generalize (hex_digits 32 (uuid_int u) ""). intros h.
  destruct (String.substring 0 8 h); discriminate.
Qed.

Lemma dict_get_missing (payload : gmap string jvalue) (key : string) :
  payload !! key = None → dict_get payload key = JNull.
Proof. unfold dict_get. by intros ->. Qed.

Lemma dict_get_present (payload : gmap string jvalue) (key : string) v :
  payload !! key = Some v → dict_get payload key = v.
Proof. unfold dict_get. by intros ->. Qed.

Lemma truthy_JStr (s : string) : s ≠ "" → truthy (JStr s) = true.
Proof. intros Hs. simpl. by apply bool_decide_eq_true_2. Qed.

Lemma signed_claims_lookup user_id username is_admin expire :
  let c := signed_claims user_id username is_admin expire in
  c !! "id" = Some user_id ∧ c !! "sub" = Some username
  ∧ c !! "is_admin" = Some is_admin ∧ c !! "exp" = Some (JNum expire).
Proof. unfold signed_claims. cbv zeta. split_and!; by simplify_map_eq. Qed.

Lemma signed_claims_accepted user_id u is_admin expire now :
  (now ≤ expire)%Z →
  jose_accepts (signed_claims user_id (JStr u) is_admin expire) now = true.
Proof.
  intros Hle. unfold jose_accepts.
  destruct (signed_claims_lookup user_id (JStr u) is_admin expire)
    as (_ & -> & _ & ->).
  rewrite (bool_decide_eq_true_2 (now ≤ expire)%Z) by done.
  rewrite bool_decide_eq_true_2; [done|].
  unfold signed_claims, wire_keys. rewrite !dom_insert_L, dom_singleton_L.
  set_solver.
Qed.

Section auth_properties.
Context {hasher : PasswordHasher} {codec : TokenCodec}.
Variables SECRET_KEY REFRESH_SECRET_KEY : string.

Lemma fetchone_None {R} (P : R → bool) (table : list R) :
  Forall (λ r, P r = false) table → fetchone P table = None.
Proof.
  unfold fetchone. induction 1 as [|r table Hr _ IH]; simpl; [done|].
  by rewrite Hr.
Qed.

Lemma create_access_token_signed user_id username is_admin now :
  create_access_token SECRET_KEY
    {[ "id" := user_id; "sub" := username; "is_admin" := is_admin ]} None now
  = jwt_encode (signed_claims user_id username is_admin (now + 1800)) SECRET_KEY.
Proof. reflexivity. Qed.

Lemma create_refresh_token_signed user_id username is_admin now :
  create_refresh_token REFRESH_SECRET_KEY
    {[ "id" := user_id; "sub" := username; "is_admin" := is_admin ]} now
  = jwt_encode (signed_claims user_id username is_admin (now + 604800))
      REFRESH_SECRET_KEY.
Proof. reflexivity. Qed.

(** What [get_current_user] does with a decoded claim set. *)
Lemma get_current_user_decoded tok now payload :
  jwt_decode tok SECRET_KEY now = Some payload →
  get_current_user SECRET_KEY tok now =
    if truthy (dict_get payload "id") && truthy (dict_get payload "sub")
       && is_not_None (dict_get payload "is_admin")
    then TokenData_init (dict_get payload "id") (dict_get payload "sub")
           (dict_get payload "is_admin")
    else Raise (EHTTP credentials_exception).
Proof.
  intros Hdec. unfold get_current_user. rewrite Hdec. unfold all. simpl.
  rewrite andb_true_r, andb_assoc.
  by destruct (_ && _ && _).
Qed.

(** A token whose [is_admin] claim is null never resolves. *)
Lemma get_current_user_rejects_signed user_id username expire now :
  get_current_user SECRET_KEY
    (jwt_encode (signed_claims user_id username JNull expire) SECRET_KEY) now
  = Raise (EHTTP credentials_exception).
Proof.
  destruct (jwt_decode (jwt_encode (signed_claims user_id username JNull expire)
              SECRET_KEY) SECRET_KEY now) as [payload|] eqn:Hdec.
  - rewrite (get_current_user_decoded _ _ _ Hdec).
    apply jwt_decode_encode_inv in Hdec as ->.
    destruct (signed_claims_lookup user_id username JNull expire)
      as (_ & _ & Hadm & _).
    rewrite (dict_get_present _ _ _ Hadm). simpl.
    by rewrite andb_false_r.
  - unfold get_current_user. by rewrite Hdec.
Qed.

(** C4. A username with no row in [users], and a stored user whose
    password [verify_password] returns [False] for, make [login] raise one
    and the same [HTTPException]: status 401, detail "Invalid username or
    password". For a stored user, what [verify_password] raises is not
    caught: [login] raises that exception and not the 401, so that the
    caller can tell the stored user from an unknown one. *)
Theorem login_failure_modes s form now :
  (Forall (λ r, username_col r ≠ form_username form) (users s) →
   login SECRET_KEY REFRESH_SECRET_KEY (DbUp s) form now
     = Raise (EHTTP invalid_login))
  ∧ (∀ user,
     get_user_by_username (DbUp s) (form_username form) = Ok (Some user) →
     verify_password (form_password form) (password_col user) = Ok false →
     login SECRET_KEY REFRESH_SECRET_KEY (DbUp s) form now
       = Raise (EHTTP invalid_login))
  ∧ (∀ user e,
     get_user_by_username (DbUp s) (form_username form) = Ok (Some user) →
     verify_password (form_password form) (password_col user) = Raise e →
     login SECRET_KEY REFRESH_SECRET_KEY (DbUp s) form now = Raise e).
Proof.
  split_and!.
  - intros Habs. unfold login, get_user_by_username. simpl.
    rewrite fetchone_None; [done|].
    eapply Forall_impl; [exact Habs|]. intros r Hr. simpl in Hr.
    by apply bool_decide_eq_false_2.
  - intros user Hget Hpw. unfold login. rewrite Hget. simpl.
    by rewrite Hpw.
  - intros user e Hget Hpw. unfold login. rewrite Hget. simpl.
    by rewrite Hpw.
Qed.

(** C5, amended. For a stored user with a non-empty username and a
    password that verifies, [login] succeeds and [get_current_user] on
    the access token, at any time up to its expiry, returns the id,
    username and is_admin of the stored row. *)
Theorem login_then_get_current_user s form now now' user :
  get_user_by_username (DbUp s) (form_username form) = Ok (Some user) →
  verify_password (form_password form) (password_col user) = Ok true →
  username_col user ≠ "" →
  (now' ≤ now + 1800)%Z →
  ∃ t, login SECRET_KEY REFRESH_SECRET_KEY (DbUp s) form now = Ok t
    ∧ tok_token_type t = "bearer"
    ∧ get_current_user SECRET_KEY (tok_access_token t) now' =
        Ok (mkTokenData (str_UUID (user_id_col user)) (username_col user)
              (is_admin_col user)).
Proof.
  intros Hget Hpw Hname Hnow.
  unfold login. rewrite Hget. simpl. rewrite Hpw. simpl.
  eexists. split; [reflexivity|]. split; [reflexivity|].
  cbn [tok_access_token]. rewrite create_access_token_signed.
  set (c := signed_claims (JStr (str_UUID (user_id_col user)))
              (JStr (username_col user)) (JBool (is_admin_col user))
              (now + 1800)).
  assert (jwt_decode (jwt_encode c SECRET_KEY) SECRET_KEY now' = Some c) as Hdec.
  { by apply jwt_decode_encode, signed_claims_accepted. }
  rewrite (get_current_user_decoded _ _ _ Hdec).
  destruct (signed_claims_lookup (JStr (str_UUID (user_id_col user)))
              (JStr (username_col user)) (JBool (is_admin_col user))
              (now + 1800))
    as (Hid & Hsub & Hadm & _).
  fold c in Hid, Hsub, Hadm.
  rewrite (dict_get_present _ _ _ Hid), (dict_get_present _ _ _ Hsub),
    (dict_get_present _ _ _ Hadm).
  rewrite !truthy_JStr by (done || apply str_UUID_nonempty).
  reflexivity.
Qed.
Lemma truthy_missing (payload : gmap string jvalue) (key : string) :
  payload !! key = None → truthy (dict_get payload key) = false.
Proof. intros Hk. by rewrite (dict_get_missing _ _ Hk). Qed.

(** C6, amended. For a token that [jwt.decode] accepts under the access
    key: [get_current_user] raises the 401 credentials exception when
    the id, username or is_admin claim is absent, and also when the id
    or the username is empty (falsy) or is_admin is null; it returns the
    caller when id and username are non-empty strings and is_admin is a
    boolean, [false] included. *)
Theorem get_current_user_claims tok now payload :
  jwt_decode tok SECRET_KEY now = Some payload →
  ((payload !! "id" = None ∨ payload !! "sub" = None
    ∨ payload !! "is_admin" = None) →
   get_current_user SECRET_KEY tok now = Raise (EHTTP credentials_exception))
  ∧ ((truthy (dict_get payload "id") = false
      ∨ truthy (dict_get payload "sub") = false
      ∨ dict_get payload "is_admin" = JNull) →
     get_current_user SECRET_KEY tok now = Raise (EHTTP credentials_exception))
  ∧ (∀ i u b,
     payload !! "id" = Some (JStr i) → i ≠ "" →
     payload !! "sub" = Some (JStr u) → u ≠ "" →
     payload !! "is_admin" = Some (JBool b) →
     get_current_user SECRET_KEY tok now = Ok (mkTokenData i u b)).
Proof.
  intros Hdec. rewrite (get_current_user_decoded _ _ _ Hdec).
  assert ((truthy (dict_get payload "id") = false
           ∨ truthy (dict_get payload "sub") = false
           ∨ dict_get payload "is_admin" = JNull) →
          (if truthy (dict_get payload "id") && truthy (dict_get payload "sub")
              && is_not_None (dict_get payload "is_admin")
           then TokenData_init (dict_get payload "id") (dict_get payload "sub")
                  (dict_get payload "is_admin")
           else Raise (EHTTP credentials_exception))
          = Raise (EHTTP credentials_exception)) as Hfalsy.
  { intros [-> | [-> | ->]]; [done | by rewrite andb_false_r | ].
    simpl. by rewrite andb_false_r. }
  split_and!.
  - intros [Hk | [Hk | Hk]]; apply Hfalsy.
    + left. by apply truthy_missing.
    + right; left. by apply truthy_missing.
    + right; right. by apply dict_get_missing.
  - exact Hfalsy.
  - intros i u b Hid Hi Hsub Hu Hadm.
    rewrite (dict_get_present _ _ _ Hid), (dict_get_present _ _ _ Hsub),
      (dict_get_present _ _ _ Hadm).
    by rewrite !truthy_JStr.
Qed.

(** What [refresh_token] does with a decoded claim set. *)
Lemma refresh_token_decoded tok now payload :
  jwt_decode tok REFRESH_SECRET_KEY now = Some payload →
  refresh_token SECRET_KEY REFRESH_SECRET_KEY tok now =
    if truthy (dict_get payload "sub") && truthy (dict_get payload "id")
    then Ok (mkToken
           (jwt_encode (signed_claims (dict_get payload "id")
              (dict_get payload "sub") (dict_get payload "is_admin")
              (now + 1800)) SECRET_KEY)
           (jwt_encode (signed_claims (dict_get payload "id")
              (dict_get payload "sub") (dict_get payload "is_admin")
              (now + 604800)) REFRESH_SECRET_KEY)
           "bearer")
    else Raise (EHTTP (mkHTTPException 401 "Invalid refresh token" [])).
Proof.
  intros Hdec. unfold refresh_token. rewrite Hdec. cbv zeta.
  rewrite <- negb_andb.
  destruct (_ && _); simpl; [|done].
  by rewrite create_access_token_signed, create_refresh_token_signed.
Qed.

(** C8, amended. [refresh_token] raises an [HTTPException] of status 401
    when [jwt.decode] under the refresh key fails, when the decoded
    claims lack the username or the id, and also when one of the two is
    empty (falsy); otherwise it returns an access token and a refresh
    token signed anew from the same id, username and is_admin claims,
    with the expiries of the present call, and token_type "bearer". The
    function reads and writes no store. *)
Theorem refresh_token_outcomes tok now :
  (jwt_decode tok REFRESH_SECRET_KEY now = None →
   refresh_token SECRET_KEY REFRESH_SECRET_KEY tok now =
     Raise (EHTTP (mkHTTPException 401 "Invalid or expired refresh token" [])))
  ∧ (∀ payload,
     jwt_decode tok REFRESH_SECRET_KEY now = Some payload →
     ((payload !! "sub" = None ∨ payload !! "id" = None
       ∨ truthy (dict_get payload "sub") = false
       ∨ truthy (dict_get payload "id") = false) →
      refresh_token SECRET_KEY REFRESH_SECRET_KEY tok now =
        Raise (EHTTP (mkHTTPException 401 "Invalid refresh token" [])))
     ∧ (truthy (dict_get payload "sub") = true →
        truthy (dict_get payload "id") = true →
        refresh_token SECRET_KEY REFRESH_SECRET_KEY tok now =
          Ok (mkToken
                (jwt_encode (signed_claims (dict_get payload "id")
                   (dict_get payload "sub") (dict_get payload "is_admin")
                   (now + 1800)) SECRET_KEY)
                (jwt_encode (signed_claims (dict_get payload "id")
                   (dict_get payload "sub") (dict_get payload "is_admin")
                   (now + 604800)) REFRESH_SECRET_KEY)
                "bearer"))).
Proof.
  split.
  - intros Hdec. unfold refresh_token. by rewrite Hdec.
  - intros payload Hdec. rewrite (refresh_token_decoded _ _ _ Hdec). split.
    + intros [Hk | [Hk | [Hk | Hk]]];
        try apply truthy_missing in Hk; rewrite Hk;
        [done | by rewrite andb_false_r | done | by rewrite andb_false_r].
    + by intros -> ->.
Qed.

(** C9, amended. A refresh token that [jwt.decode] accepts, with a
    non-empty (truthy) id and username and no is_admin claim, is
    refreshed: the new access and refresh tokens carry a null is_admin
    claim, and [get_current_user] rejects the new access token at any
    time with the 401 credentials exception. *)
Theorem refresh_without_is_admin tok now payload :
  jwt_decode tok REFRESH_SECRET_KEY now = Some payload →
  truthy (dict_get payload "id") = true →
  truthy (dict_get payload "sub") = true →
  payload !! "is_admin" = None →
  ∃ t, refresh_token SECRET_KEY REFRESH_SECRET_KEY tok now = Ok t
    ∧ tok_access_token t =
        jwt_encode (signed_claims (dict_get payload "id")
          (dict_get payload "sub") JNull (now + 1800)) SECRET_KEY
    ∧ tok_refresh_token t =
        jwt_encode (signed_claims (dict_get payload "id")
          (dict_get payload "sub") JNull (now + 604800)) REFRESH_SECRET_KEY
    ∧ ∀ now', get_current_user SECRET_KEY (tok_access_token t) now'
              = Raise (EHTTP credentials_exception).
Proof.
  intros Hdec Hid Hsub Hadm.
  rewrite (refresh_token_decoded _ _ _ Hdec), Hid, Hsub.
  rewrite (dict_get_missing _ _ Hadm). simpl.
  eexists. split; [reflexivity|]. cbn [tok_access_token tok_refresh_token].
  split_and!; try done.
  intros now'. apply get_current_user_rejects_signed.
Qed.
End auth_properties.

(** * The statements at concrete inputs *)

Module Run.
Import Sample.

(** Five ships against three and two: a tie, the defender wins. *)
Example tie_five_five :
  (r ←! start_battle http_str (DbUp db) (mkUUID 1) (mkUUID 2) caller_alice
          (mkUUID 77);
   Ok (winner_id r, loser_id r, attacker_total_ships r, defender_total_ships r))
  = Ok (bob, alice, 5, 5).
Proof. vm_compute. reflexivity. Qed.

(** Ten ships against five. *)
Example ten_against_five :
  (r ←! start_battle http_str (DbUp db) (mkUUID 5) (mkUUID 2) caller_alice
          (mkUUID 77);
   Ok (winner_id r, attacker_total_ships r, defender_total_ships r, report r))
  = Ok (alice, 10, 5,
        "Battle ID: 00000000-0000-0000-0000-00000000004d" ++ nl
          ++ "Attacker wins!" ++ nl ++ "Attacker ships: 10" ++ nl
          ++ "Defender ships: 5").
Proof. vm_compute. reflexivity. Qed.

Ltac ready :=
  unfold battle_ready; split_and!; vm_compute; (reflexivity || discriminate).

(** Two empty fleets tie, and five ships tie with three and two: the
    defender wins both times. *)
Lemma tie_defender_wins_witness :
  (∃ r, start_battle http_str (DbUp db) (mkUUID 3) (mkUUID 4) caller_alice
          (mkUUID 77) = Ok r
     ∧ winner_id r = bob ∧ loser_id r = alice ∧ winner_id r ≠ alice
     ∧ attacker_id r = alice ∧ defender_id r = bob
     ∧ attacker_total_ships r = sum_values ∅
     ∧ defender_total_ships r = sum_values ∅
     ∧ report r =
         "Battle ID: " ++ str_UUID (mkUUID 77) ++ nl
           ++ "Tie - Defender wins by default" ++ "!" ++ nl
           ++ "Attacker ships: " ++ pretty (sum_values ∅) ++ nl
           ++ "Defender ships: " ++ pretty (sum_values ∅)
     ∧ ∃ before after,
         report r = before ++ "Tie - Defender wins by default" ++ after)
  ∧ (∃ r, start_battle http_str (DbUp db) (mkUUID 1) (mkUUID 2) caller_alice
            (mkUUID 77) = Ok r
       ∧ winner_id r = bob ∧ loser_id r = alice ∧ winner_id r ≠ alice
       ∧ attacker_id r = alice ∧ defender_id r = bob
       ∧ attacker_total_ships r = sum_values {[ "x" := 5 ]}
       ∧ defender_total_ships r = sum_values {[ "x" := 3; "y" := 2 ]}
       ∧ report r =
           "Battle ID: " ++ str_UUID (mkUUID 77) ++ nl
             ++ "Tie - Defender wins by default" ++ "!" ++ nl
             ++ "Attacker ships: " ++ pretty (sum_values {[ "x" := 5 ]}) ++ nl
             ++ "Defender ships: " ++ pretty (sum_values {[ "x" := 3; "y" := 2 ]})
       ∧ ∃ before after,
           report r = before ++ "Tie - Defender wins by default" ++ after).
Proof.
  split.
  - refine (tie_defender_wins http_str db (mkUUID 3) (mkUUID 4) caller_alice
              (mkUUID 77) (fleet 3 alice ∅) (fleet 4 bob ∅) _ _).
    + ready.
    + reflexivity.
  - refine (tie_defender_wins http_str db (mkUUID 1) (mkUUID 2) caller_alice
              (mkUUID 77) (fleet 1 alice {[ "x" := 5 ]})
              (fleet 2 bob {[ "x" := 3; "y" := 2 ]}) _ _).
    + ready.
    + vm_compute. reflexivity.
Defined.


Lemma outcome_names_both_owners_witness :
  ∃ s a d, DbUp db = DbUp s
    ∧ select_fleet s (mkUUID 1) = Some a
    ∧ select_fleet s (mkUUID 2) = Some d
    ∧ alice = fleet_user_id_col a
    ∧ bob = fleet_user_id_col d
    ∧ (bob = alice ∧ alice = bob ∨ bob = bob ∧ alice = alice)
    ∧ bob ≠ alice.
Proof.
  refine (outcome_names_both_owners http_str (DbUp db) (mkUUID 1) (mkUUID 2)
           caller_alice (mkUUID 77)
           (mkBattleResult (mkUUID 77) alice bob (mkUUID 1) (mkUUID 2) bob alice
              5 5 (battle_report (mkUUID 77) "Tie - Defender wins by default" 5 5))
           _).
  vm_compute. reflexivity.
Defined.

(** Fleet 9 does not exist; fleet 2 is not the caller's. *)
Lemma precondition_errors_become_500_witness :
  start_battle http_str (DbUp db) (mkUUID 1) (mkUUID 9) caller_alice (mkUUID 77)
    = Raise (EHTTP (mkHTTPException 500
        "Error during battle: 404: Defender fleet not found" []))
  ∧ start_battle http_str (DbUp db) (mkUUID 2) (mkUUID 1) caller_alice (mkUUID 77)
    = Raise (EHTTP (mkHTTPException 500
        "Error during battle: 403: You do not own the attacker fleet" [])).
Proof.
  split.
  - refine (proj2 (precondition_errors_become_500 http_str db (mkUUID 1)
             (mkUUID 9) caller_alice (mkUUID 77) (fleet 1 alice {[ "x" := 5 ]})
             _) _ _); vm_compute; reflexivity.
  - refine (proj1 (precondition_errors_become_500 http_str db (mkUUID 2)
             (mkUUID 1) caller_alice (mkUUID 77)
             (fleet 2 bob {[ "x" := 3; "y" := 2 ]}) _) _);
      vm_compute; (reflexivity || discriminate).
Defined.

(** Fleets 1 and 5 both belong to the caller. *)
Lemma self_battle_becomes_500_witness :
  start_battle http_str (DbUp db) (mkUUID 1) (mkUUID 5) caller_alice (mkUUID 77)
    = Raise (EHTTP (mkHTTPException 500
        "Error during battle: 400: Cannot attack your own fleet" [])).
Proof.
  refine (self_battle_becomes_500 http_str db (mkUUID 1) (mkUUID 5) caller_alice
           (mkUUID 77) (fleet 1 alice {[ "x" := 5 ]})
           (fleet 5 alice {[ "x" := 10 ]}) _ _ _ _);
    vm_compute; reflexivity.
Defined.

(** *** Session manager, with the reference libraries *)

(** An unknown user, a wrong password, and a stored value that is no
    hash: Dave's row holds his password as it was given. *)
Lemma login_failure_modes_witness :
  login (hasher := toy_hasher) (codec := sym_codec) "k-access" "k-refresh"
    (DbUp db) (mkUserLogin "carol" "pw") 100 = Raise (EHTTP invalid_login)
  ∧ login_alice "wrong" 100 = Raise (EHTTP invalid_login)
  ∧ login (hasher := toy_hasher) (codec := sym_codec) "k-access" "k-refresh"
      (DbUp Sample2.db3) (mkUserLogin "dave" "wrong") 100
    = Raise (EOther "hash could not be identified").
Proof.
  split_and!.
  - refine (proj1 (@login_failure_modes toy_hasher sym_codec "k-access"
             "k-refresh" db (mkUserLogin "carol" "pw") 100) _).
    repeat constructor; vm_compute; discriminate.
  - refine (proj1 (proj2 (@login_failure_modes toy_hasher sym_codec "k-access"
             "k-refresh" db (mkUserLogin "alice" "wrong") 100)) alice_row _ _);
      vm_compute; reflexivity.
  - refine (proj2 (proj2 (@login_failure_modes toy_hasher sym_codec "k-access"
             "k-refresh" Sample2.db3 (mkUserLogin "dave" "wrong") 100))
             Sample2.dave_row _ _ _); vm_compute; reflexivity.
Defined.

(** Alice logs in at time 100 and is resolved at time 1900. *)
Lemma login_then_get_current_user_witness :
  ∃ t, login_alice "pw" 100 = Ok t
    ∧ tok_token_type t = "bearer"
    ∧ get_current_user (codec := sym_codec) "k-access" (tok_access_token t) 1900
      = Ok (mkTokenData (str_UUID alice) "alice" false).
Proof.
  refine (@login_then_get_current_user toy_hasher sym_codec "k-access"
            "k-refresh" db (mkUserLogin "alice" "pw") 100 1900 alice_row
            _ _ _ _); vm_compute; (reflexivity || discriminate).
Defined.

(** C5, as stated, fails: the user stored with the empty username logs
    in with the right password, and the access token of that login is
    rejected at once. *)
Lemma login_roundtrip_empty_username :
  get_user_by_username (DbUp db) "" = Ok (Some bob_row)
  ∧ verify_password (hasher := toy_hasher) "pw" (password_col bob_row) = Ok true
  ∧ ∃ t, login (hasher := toy_hasher) (codec := sym_codec) "k-access"
           "k-refresh" (DbUp db) (mkUserLogin "" "pw") 100 = Ok t
      ∧ get_current_user (codec := sym_codec) "k-access" (tok_access_token t) 100
        = Raise (EHTTP credentials_exception).
Proof.
  split_and!; [vm_compute; reflexivity..|].
  exists (@mkToken sym_codec
            (Signed (signed_claims (JStr (str_UUID bob)) (JStr "") (JBool true) 1900)
               "k-access")
            (Signed (signed_claims (JStr (str_UUID bob)) (JStr "") (JBool true)
               604900) "k-refresh")
            "bearer").
  split; [reflexivity | vm_compute; reflexivity].
Qed.

(** A token with is_admin false resolves; one without id does not. *)
Lemma get_current_user_claims_witness :
  get_current_user (codec := sym_codec) "k-access"
    (Signed claims_guest "k-access") 0 = Ok (mkTokenData "7" "guest" false)
  ∧ get_current_user (codec := sym_codec) "k-access"
      (Signed (delete "id" claims_guest) "k-access") 0
    = Raise (EHTTP credentials_exception).
Proof.
  split.
  - refine (proj2 (proj2 (@get_current_user_claims sym_codec "k-access"
             (Signed claims_guest "k-access") 0 claims_guest _))
             "7" "guest" false _ _ _ _ _);
      vm_compute; (reflexivity || discriminate).
  - refine (proj1 (@get_current_user_claims sym_codec "k-access"
             (Signed (delete "id" claims_guest) "k-access") 0
             (delete "id" claims_guest) _) _);
      [vm_compute; reflexivity | left; vm_compute; reflexivity].
Defined.

(** C6, as stated, fails: the token decodes under the access key and
    carries id, username and is_admin, yet it is rejected, because the
    username is the empty string. *)
Lemma get_current_user_empty_username :
  jwt_decode (TokenCodec := sym_codec) (Signed claims_no_name "k-access")
    "k-access" 0 = Some claims_no_name
  ∧ claims_no_name !! "id" = Some (JStr "7")
  ∧ claims_no_name !! "sub" = Some (JStr "")
  ∧ claims_no_name !! "is_admin" = Some (JBool false)
  ∧ get_current_user (codec := sym_codec) "k-access"
      (Signed claims_no_name "k-access") 0
    = Raise (EHTTP credentials_exception).
Proof. split_and!; vm_compute; reflexivity. Qed.

(** A refresh at time 50, and a token signed with another key. *)
Lemma refresh_token_outcomes_witness :
  refresh_token (codec := sym_codec) "k-access" "k-refresh"
    (Signed claims_guest "k-refresh") 50
    = Ok (@mkToken sym_codec
            (Signed (signed_claims (JStr "7") (JStr "guest") (JBool false) 1850)
               "k-access")
            (Signed (signed_claims (JStr "7") (JStr "guest") (JBool false) 604850)
               "k-refresh")
            "bearer")
  ∧ refresh_token (codec := sym_codec) "k-access" "k-refresh"
      (Signed claims_guest "k-access") 50
    = Raise (EHTTP (mkHTTPException 401 "Invalid or expired refresh token" [])).
Proof.
  split.
  - refine (proj2 (proj2 (@refresh_token_outcomes sym_codec "k-access"
             "k-refresh" (Signed claims_guest "k-refresh") 50) claims_guest _)
             _ _); vm_compute; reflexivity.
  - refine (proj1 (@refresh_token_outcomes sym_codec "k-access" "k-refresh"
             (Signed claims_guest "k-access") 50) _).
    vm_compute; reflexivity.
Defined.

(** C8, as stated, fails: the refresh token of the login of the user
    with the empty username decodes under the refresh key and carries
    both id and username, yet [refresh_token] raises instead of
    returning new tokens. *)
Lemma refresh_token_empty_username :
  let payload := signed_claims (JStr (str_UUID bob)) (JStr "") (JBool true) 604900 in
  let t := @mkToken sym_codec
             (Signed (signed_claims (JStr (str_UUID bob)) (JStr "") (JBool true) 1900)
                "k-access")
             (Signed payload "k-refresh") "bearer" in
  login (hasher := toy_hasher) (codec := sym_codec) "k-access" "k-refresh"
    (DbUp db) (mkUserLogin "" "pw") 100 = Ok t
  ∧ jwt_decode (TokenCodec := sym_codec) (tok_refresh_token t) "k-refresh" 100
    = Some payload
  ∧ payload !! "id" = Some (JStr (str_UUID bob))
  ∧ payload !! "sub" = Some (JStr "")
  ∧ refresh_token (codec := sym_codec) "k-access" "k-refresh"
      (tok_refresh_token t) 100
    = Raise (EHTTP (mkHTTPException 401 "Invalid refresh token" [])).
Proof.
  cbv zeta. split_and!; [reflexivity | vm_compute; reflexivity.. | reflexivity].
Qed.

(** A refresh token without is_admin is refreshed at time 50; the new
    access token is rejected at time 60. *)
Lemma refresh_without_is_admin_witness :
  ∃ t, refresh_token (codec := sym_codec) "k-access" "k-refresh"
         (Signed claims_no_admin "k-refresh") 50 = Ok t
    ∧ tok_access_token t =
        Signed (signed_claims (JStr "7") (JStr "guest") JNull 1850) "k-access"
    ∧ tok_refresh_token t =
        Signed (signed_claims (JStr "7") (JStr "guest") JNull 604850) "k-refresh"
    ∧ ∀ now', get_current_user (codec := sym_codec) "k-access"
                (tok_access_token t) now'
              = Raise (EHTTP credentials_exception).
Proof.
  refine (@refresh_without_is_admin sym_codec "k-access" "k-refresh"
            (Signed claims_no_admin "k-refresh") 50 claims_no_admin _ _ _ _);
    vm_compute; reflexivity.
Defined.

(** C9, as stated, fails: the refresh token decodes under the refresh
    key and carries id and username and no is_admin, yet [refresh_token]
    raises, because the username is the empty string. *)
Lemma refresh_without_is_admin_empty_username :
  jwt_decode (TokenCodec := sym_codec) (Signed claims_no_admin_no_name "k-refresh")
    "k-refresh" 50 = Some claims_no_admin_no_name
  ∧ claims_no_admin_no_name !! "id" = Some (JStr "7")
  ∧ claims_no_admin_no_name !! "sub" = Some (JStr "")
  ∧ claims_no_admin_no_name !! "is_admin" = None
  ∧ refresh_token (codec := sym_codec) "k-access" "k-refresh"
      (Signed claims_no_admin_no_name "k-refresh") 50
    = Raise (EHTTP (mkHTTPException 401 "Invalid refresh token" [])).
Proof. split_and!; [vm_compute; reflexivity.. | reflexivity]. Qed.
End Run.

(** * Further properties *)

(** ** Rows and queries *)

Lemma fetchone_app {R} (P : R → bool) (l1 l2 : list R) :
  fetchone P (l1 ++ l2) =
    match fetchone P l1 with
    | Some r => Some r
    | None => fetchone P l2
    end.
Proof.
  unfold fetchone. induction l1 as [|r l1 IH]; simpl; [done|].
  by destruct (P r).
Qed.

Lemma fetchone_Some {R} (P : R → bool) (table : list R) (r : R) :
  fetchone P table = Some r → r ∈ table ∧ P r = true.
Proof.
  unfold fetchone. intros Hfind. apply find_some in Hfind as [Hin HP].
  split; [by apply list_elem_of_In | done].
Qed.

Lemma fetchone_is_None {R} (P : R → bool) (table : list R) :
  fetchone P table = None → Forall (λ r, P r = false) table.
Proof.
  unfold fetchone. intros Hfind. apply Forall_forall. intros r Hr.
  apply (find_none _ _ Hfind). by apply list_elem_of_In.
Qed.

(** ** Battle resolver, further *)

Lemma sum_values_nonneg (ships : gmap string Z) :
  map_Forall (λ _ count, 0 ≤ count)%Z ships → (0 ≤ sum_values ships)%Z.
Proof.
  unfold sum_values.
  induction ships as [|k count ships Hk Hfold IH] using map_first_key_ind.
  - intros _. by rewrite map_fold_empty.
  - intros Hall. apply map_Forall_insert in Hall as [Hcount Hrest]; [|done].
    rewrite map_fold_insert_first_key by done.
    specialize (IH Hrest). lia.
Qed.

Section user_battles_further.
Variable http_str : HTTPException → string.


(** X2. With unequal totals the roles do not matter: whichever of the two
    owners attacks the other, the same owner wins and the same owner
    loses. *)
Theorem stronger_fleet_wins_either_way s f1 f2 cu1 cu2 u u' r1 r2 r r' :
  battle_ready s f1 f2 cu1 r1 r2 →
  battle_ready s f2 f1 cu2 r2 r1 →
  sum_values (ships_col r1) ≠ sum_values (ships_col r2) →
  start_battle http_str (DbUp s) f1 f2 cu1 u = Ok r →
  start_battle http_str (DbUp s) f2 f1 cu2 u' = Ok r' →
  winner_id r = winner_id r' ∧ loser_id r = loser_id r'.
Proof.
  intros H12 H21 Hne.
  rewrite !start_battle_up.
  rewrite (start_battle_body_ready _ _ _ _ _ _ _ H12),
    (start_battle_body_ready _ _ _ _ _ _ _ H21).
  cbv zeta. simpl.
  destruct (Z.lt_trichotomy (sum_values (ships_col r1)) (sum_values (ships_col r2)))
    as [Hlt | [Heq | Hgt]]; [| done |].
  - replace (sum_values (ships_col r1) >? sum_values (ships_col r2))%Z with false
      by (symmetry; rewrite Z.gtb_ltb; apply Z.ltb_ge; lia).
    replace (sum_values (ships_col r2) >? sum_values (ships_col r1))%Z with true
      by (symmetry; apply Z.gtb_gt; lia).
    by intros [= <-] [= <-].
  - replace (sum_values (ships_col r1) >? sum_values (ships_col r2))%Z with true
      by (symmetry; apply Z.gtb_gt; lia).
    replace (sum_values (ships_col r2) >? sum_values (ships_col r1))%Z with false
      by (symmetry; rewrite Z.gtb_ltb; apply Z.ltb_ge; lia).
    by intros [= <-] [= <-].
Qed.

(** X3. An attacker fleet without ships never wins against a fleet whose
    counts are not negative: the defender's owner is the winner. *)
Theorem empty_attacker_never_wins s af df cu u a d r :
  battle_ready s af df cu a d →
  ships_col a = ∅ →
  map_Forall (λ _ count, 0 ≤ count)%Z (ships_col d) →
  start_battle http_str (DbUp s) af df cu u = Ok r →
  winner_id r = fleet_user_id_col d ∧ loser_id r = fleet_user_id_col a
  ∧ attacker_total_ships r = 0%Z.
Proof.
  intros Hready Hempty Hcounts.
  rewrite start_battle_up, (start_battle_body_ready _ _ _ _ _ _ _ Hready).
  cbv zeta. rewrite Hempty, sum_values_empty.
  pose proof (sum_values_nonneg _ Hcounts) as Hnonneg.
  replace (0 >? sum_values (ships_col d))%Z with false
    by (symmetry; rewrite Z.gtb_ltb; apply Z.ltb_ge; lia).
  simpl. destruct (_ >? _)%Z; by intros [= <-].
Qed.
End user_battles_further.

(** ** Session manager, further *)

Section sessions_further.
Context {hasher : PasswordHasher} {codec : TokenCodec}.
Variables SECRET_KEY REFRESH_SECRET_KEY : string.

Lemma login_found db form now user :
  get_user_by_username db (form_username form) = Ok (Some user) →
  verify_password (form_password form) (password_col user) = Ok true →
  login SECRET_KEY REFRESH_SECRET_KEY db form now =
    Ok (pair_signed SECRET_KEY REFRESH_SECRET_KEY (JStr (str_UUID (user_id_col user))) (JStr (username_col user))
          (JBool (is_admin_col user)) now).
Proof.
  intros Hget Hpw. unfold login. rewrite Hget. simpl. rewrite Hpw. simpl.
  by rewrite create_access_token_signed, create_refresh_token_signed.
Qed.

Lemma get_current_user_signed i u b expire now :
  (now ≤ expire)%Z → i ≠ "" → u ≠ "" →
  get_current_user SECRET_KEY
    (jwt_encode (signed_claims (JStr i) (JStr u) (JBool b) expire) SECRET_KEY) now
  = Ok (mkTokenData i u b).
Proof.
  intros Hnow Hi Hu.
  pose proof (jwt_decode_encode _ SECRET_KEY now
                (signed_claims_accepted (JStr i) u (JBool b) expire now Hnow)) as Hdec.
  rewrite (get_current_user_decoded _ _ _ _ Hdec).
  destruct (signed_claims_lookup (JStr i) (JStr u) (JBool b) expire)
    as (Hid & Hsub & Hadm & _).
  rewrite (dict_get_present _ _ _ Hid), (dict_get_present _ _ _ Hsub),
    (dict_get_present _ _ _ Hadm).
  by rewrite !truthy_JStr.
Qed.

Lemma refresh_token_signed i u is_admin expire now :
  (now ≤ expire)%Z → i ≠ "" → u ≠ "" →
  refresh_token SECRET_KEY REFRESH_SECRET_KEY
    (jwt_encode (signed_claims (JStr i) (JStr u) is_admin expire) REFRESH_SECRET_KEY)
    now
  = Ok (pair_signed SECRET_KEY REFRESH_SECRET_KEY (JStr i) (JStr u) is_admin now).
Proof.
  intros Hnow Hi Hu.
  pose proof (jwt_decode_encode _ REFRESH_SECRET_KEY now
                (signed_claims_accepted (JStr i) u is_admin expire now Hnow)) as Hdec.
  rewrite (refresh_token_decoded _ _ _ _ _ Hdec).
  destruct (signed_claims_lookup (JStr i) (JStr u) is_admin expire)
    as (Hid & Hsub & Hadm & _).
  rewrite (dict_get_present _ _ _ Hid), (dict_get_present _ _ _ Hsub),
    (dict_get_present _ _ _ Hadm).
  by rewrite !truthy_JStr.
Qed.

Lemma last_cons_default (z : Z) (l : list Z) (d1 d2 : Z) :
  List.last (z :: l) d1 = List.last (z :: l) d2.
Proof. revert z. induction l as [|z' l IH]; intros z; [done|]. apply (IH z'). Qed.

Lemma refresh_chain_signed i u is_admin start times :
  i ≠ "" → u ≠ "" → within_a_week start times →
  refresh_chain SECRET_KEY REFRESH_SECRET_KEY
    (pair_signed SECRET_KEY REFRESH_SECRET_KEY (JStr i) (JStr u) is_admin start) times
  = Ok (pair_signed SECRET_KEY REFRESH_SECRET_KEY (JStr i) (JStr u) is_admin
          (List.last times start)).
Proof.
  intros Hi Hu. revert start.
  induction times as [|now later IH]; intros start Hweek; [done|].
  destruct Hweek as [Hnow Hlater].
  cbn [refresh_chain]. unfold pair_signed at 1. cbn [tok_refresh_token].
  rewrite refresh_token_signed by done. simpl.
  rewrite (IH now Hlater). f_equal. f_equal.
  destruct later as [|z later]; [done|]. apply last_cons_default.
Qed.

(** X4. A session is prolonged for as long as the client keeps refreshing:
    after a login, any number of refreshes, none more than seven days
    after the call before it, give a pair whose access token resolves,
    within thirty minutes of the last call, to the id, username and
    is_admin that the store held at login. The store is not read again. *)
Theorem session_extends_by_refresh db form now times now' user :
  get_user_by_username db (form_username form) = Ok (Some user) →
  verify_password (form_password form) (password_col user) = Ok true →
  username_col user ≠ "" →
  within_a_week now times →
  (now' ≤ List.last times now + 1800)%Z →
  ∃ pair pair',
    login SECRET_KEY REFRESH_SECRET_KEY db form now = Ok pair
    ∧ refresh_chain SECRET_KEY REFRESH_SECRET_KEY pair times = Ok pair'
    ∧ get_current_user SECRET_KEY (tok_access_token pair') now' =
        Ok (mkTokenData (str_UUID (user_id_col user)) (username_col user)
              (is_admin_col user)).
Proof.
  intros Hget Hpw Hname Hweek Hnow'.
  eexists _, _. split; [by apply login_found|].
  split.
  - apply refresh_chain_signed; [apply str_UUID_nonempty | done | done].
  - unfold pair_signed. cbn [tok_access_token].
    apply get_current_user_signed; [done | apply str_UUID_nonempty | done].
Qed.

(** X5. Every caller that [get_current_user] returns has a non-empty id and
    a non-empty username. *)
Theorem principal_has_id_and_username tok now caller :
  get_current_user SECRET_KEY tok now = Ok caller →
  td_id caller ≠ "" ∧ td_username caller ≠ "".
Proof.
  unfold get_current_user.
  destruct (jwt_decode tok SECRET_KEY now) as [payload|]; [|done].
  cbv zeta. unfold all. simpl.
  destruct (dict_get payload "id") as [|b1|n1|i];
    destruct (dict_get payload "sub") as [|b2|n2|u];
    destruct (dict_get payload "is_admin") as [|b3|n3|a];
    simpl; repeat case_bool_decide; simpl;
    try destruct b1; try destruct b2; simpl; try done.
  by intros [= <-].
Qed.

End sessions_further.

(** ** Accounts *)

#[local] Arguments str_UUID : simpl never.

Lemma fetchone_updated (u : UUID) (user_data : UserUpdate) (table : list user_row) :
  Forall (λ r, str_UUID (user_id_col r) ≠ str_UUID u →
               username_col r ≠ upd_username user_data) table →
  fetchone (λ r, bool_decide (username_col r = upd_username user_data))
    (map (λ r, if bool_decide (str_UUID (user_id_col r) = str_UUID u)
               then mkUserRow (user_id_col r) (upd_username user_data)
                      (upd_email user_data) (password_col r) (upd_is_admin user_data)
               else r) table)
  = (λ r, mkUserRow (user_id_col r) (upd_username user_data)
            (upd_email user_data) (password_col r) (upd_is_admin user_data))
    <$> fetchone (λ r, bool_decide (str_UUID (user_id_col r) = str_UUID u)) table.
Proof.
  unfold fetchone.
  induction 1 as [|r table Hr _ IH]; [reflexivity|].
  cbn [map find].
  destruct (decide (str_UUID (user_id_col r) = str_UUID u)) as [Hid|Hid].
  - rewrite !(bool_decide_eq_true_2 _ Hid). cbn [username_col].
    by rewrite bool_decide_eq_true_2.
  - rewrite !(bool_decide_eq_false_2 _ Hid).
    by rewrite bool_decide_eq_false_2 by auto.
Qed.

Lemma fetchone_deleted {R} (P : R → bool) (Q : R → Prop) `{∀ r, Decision (Q r)}
    (table : list R) :
  Forall (λ r, P r = true → ¬ Q r) table →
  fetchone P (filter Q table) = None.
Proof.
  unfold fetchone. induction 1 as [|r table Hr _ IH]; [done|].
  rewrite filter_cons. case_decide as HQ; [|done].
  cbn [find]. destruct (P r) eqn:HP; [|done]. by destruct (Hr eq_refl).
Qed.

Section accounts_properties.
Context {hasher : PasswordHasher} {scheme : PasswordScheme} {codec : TokenCodec}.
Variable http_str : HTTPException → string.
Variable UUID_of_str : string → option UUID.
Variables SECRET_KEY REFRESH_SECRET_KEY : string.







End accounts_properties.

Section accounts_changes.
Context {hasher : PasswordHasher} {scheme : PasswordScheme} {codec : TokenCodec}.
Variable http_str : HTTPException → string.
Variable UUID_of_str : string → option UUID.
Variables SECRET_KEY REFRESH_SECRET_KEY : string.

Lemma absent_from_column {A} (f : user_row → A) `{EqDecision A} (x : A)
    (table : list user_row) :
  fetchone (λ r, bool_decide (f r = x)) table = None → x ∉ map f table.
Proof.
  intros Hnone Hin. apply list_elem_of_fmap in Hin as (r & -> & Hr).
  apply fetchone_is_None in Hnone.
  rewrite Forall_forall in Hnone. specialize (Hnone r Hr).
  by apply bool_decide_eq_false_1 in Hnone.
Qed.

Lemma NoDup_snoc {A} (l : list A) (x : A) : NoDup l → x ∉ l → NoDup (l ++ [x]).
Proof.
  intros Hl Hx. apply NoDup_app. split_and!; [done | | apply NoDup_singleton].
  intros y Hy Hyx. apply list_elem_of_singleton in Hyx as ->. done.
Qed.

(** X9. Registration keeps usernames and emails unique: if no two rows
    share a username or an email before [register_user] or
    [register_admin] runs, none do afterwards, whatever the outcome. *)
Theorem registration_keeps_names_unique s data salt new_id db' outcome :
  NoDup (map username_col (users s)) →
  NoDup (map email_col (users s)) →
  register_user http_str (DbUp s) data salt new_id = (db', outcome)
  ∨ register_admin http_str (DbUp s) data salt new_id = (db', outcome) →
  ∃ s', db' = DbUp s'
    ∧ NoDup (map username_col (users s'))
    ∧ NoDup (map email_col (users s')).
Proof.
  intros Hnames Hemails.
  unfold register_user, register_admin. cbn [connect_to_db].
  destruct (fetchone (λ r, bool_decide (username_col r = reg_username data))
              (users s)) as [taken|] eqn:Hname.
  { intros [[= <- _] | [= <- _]]; by exists s. }
  destruct (fetchone (λ r, bool_decide (email_col r = reg_email data))
              (users s)) as [taken|] eqn:Hemail.
  { intros [[= <- _] | [= <- _]]; by exists s. }
  apply absent_from_column in Hname. apply absent_from_column in Hemail.
  intros [[= <- _] | [= <- _]]; eexists; (split; [reflexivity|]);
    unfold insert_user; cbn [users]; rewrite !map_app;
    split; by apply NoDup_snoc.
Qed.

(** X10. A registration that fails leaves the store as it was, and fails with
    status 500: a taken username or email, refused with 400 inside the
    [try], reaches the caller as 500 like a lost connection. *)
Theorem registration_failure db data salt new_id db' e :
  register_user http_str db data salt new_id = (db', Raise e)
  ∨ register_admin http_str db data salt new_id = (db', Raise e) →
  db' = db ∧ ∃ text, e = EHTTP (mkHTTPException 500 text []).
Proof.
  unfold register_user, register_admin.
  destruct db as [|msg|s]; cbn [connect_to_db].
  - intros [[= <- <-] | [= <- <-]]; eauto.
  - intros [[= <- <-] | [= <- <-]]; eauto.
  - destruct (fetchone (λ r, bool_decide (username_col r = reg_username data))
                (users s)) as [taken|].
    { unfold try_except, wrap_500. intros [[= <- <-] | [= <- <-]]; eauto. }
    destruct (fetchone (λ r, bool_decide (email_col r = reg_email data))
                (users s)) as [taken|].
    { unfold try_except, wrap_500. intros [[= <- <-] | [= <- <-]]; eauto. }
    unfold try_except. intros [[=] | [=]].
Qed.

(** X11. A caller who is not an admin changes no user: [update_user] and
    [delete_user] of the auth routes leave the store as it was and fail
    with 400 (an id that is no UUID) or 403, whether or not the store
    can be reached. *)
Theorem non_admin_changes_no_user db user_id data cu :
  td_is_admin cu = false →
  (∃ e, update_user http_str UUID_of_str db user_id data cu = (db, Raise (EHTTP e))
        ∧ (status_code e = 400 ∨ status_code e = 403)%Z)
  ∧ (∃ e, delete_user http_str UUID_of_str db user_id cu = (db, Raise (EHTTP e))
          ∧ (status_code e = 400 ∨ status_code e = 403)%Z).
Proof.
  intros Hadmin. unfold update_user, delete_user. rewrite Hadmin.
  destruct (UUID_of_str user_id); cbn [negb]; split; eexists; split;
    try reflexivity; cbn [status_code]; auto.
Qed.

(** X12. [update_user] never touches an id, a password hash or a fleet, and
    neither adds nor removes a row, whatever its arguments and outcome. *)
Theorem update_user_keeps_ids_and_passwords s user_id data cu db' outcome :
  update_user http_str UUID_of_str (DbUp s) user_id data cu = (db', outcome) →
  ∃ s', db' = DbUp s'
    ∧ map user_id_col (users s') = map user_id_col (users s)
    ∧ map password_col (users s') = map password_col (users s)
    ∧ user_fleets s' = user_fleets s.
Proof.
  unfold update_user.
  destruct (UUID_of_str user_id) as [u|]; [|intros [= <- _]; by exists s].
  destruct (negb (td_is_admin cu)); [intros [= <- _]; by exists s|].
  cbn [connect_to_db].
  destruct (select_user_by_id s u); [|intros [= <- _]; by exists s].
  intros [= <- _]. eexists. split; [reflexivity|].
  unfold update_users. cbn [users user_fleets]. rewrite !map_map.
  split_and!; [| |done]; apply map_ext; intros r; by case_bool_decide.
Qed.

(** X13. An admin's change of a username keeps the password: after
    [update_user] on an existing id, with a new non-empty username that
    no row of another id carries, the old password logs in under the new
    username, and the token resolves to the same id with the new
    is_admin. *)
Theorem update_user_then_login s user_id u data cu row password now now' :
  td_is_admin cu = true →
  UUID_of_str user_id = Some u →
  select_user_by_id s u = Some row →
  Forall (λ r, str_UUID (user_id_col r) ≠ str_UUID u →
               username_col r ≠ upd_username data) (users s) →
  upd_username data ≠ "" →
  verify_password password (password_col row) = Ok true →
  (now' ≤ now + 1800)%Z →
  ∃ db' pair,
    update_user http_str UUID_of_str (DbUp s) user_id data cu =
      (db', Ok "User updated successfully")
    ∧ login SECRET_KEY REFRESH_SECRET_KEY db'
        (mkUserLogin (upd_username data) password) now = Ok pair
    ∧ get_current_user SECRET_KEY (tok_access_token pair) now' =
        Ok (mkTokenData (str_UUID (user_id_col row)) (upd_username data)
              (upd_is_admin data)).
Proof.
  intros Hadmin Hparse Hrow Hfree Hname Hpw Hnow.
  eexists _, _. split.
  { unfold update_user. rewrite Hparse, Hadmin. cbn [negb connect_to_db].
    by rewrite Hrow. }
  set (row' := mkUserRow (user_id_col row) (upd_username data) (upd_email data)
                 (password_col row) (upd_is_admin data)).
  split.
  - apply (login_found _ _ _ _ _ row'); [|done].
    unfold get_user_by_username, update_users. cbn [connect_to_db res_bind users].
    cbn [form_username]. rewrite (fetchone_updated u data _ Hfree).
    unfold select_user_by_id in Hrow. by rewrite Hrow.
  - unfold pair_signed. cbn [tok_access_token user_id_col username_col is_admin_col row'].
    apply get_current_user_signed; [done | apply str_UUID_nonempty | done].
Qed.

(** X14. After an admin deletes a user, no row has that id, the rows of other
    ids are all kept, and, when every row of that username had that id,
    [login] under the username fails with 401 whatever the password is. *)
Theorem delete_user_then_login s user_id u cu row name password now :
  td_is_admin cu = true →
  UUID_of_str user_id = Some u →
  select_user_by_id s u = Some row →
  Forall (λ r, username_col r = name → str_UUID (user_id_col r) = str_UUID u)
    (users s) →
  ∃ s',
    delete_user http_str UUID_of_str (DbUp s) user_id cu =
      (DbUp s', Ok "User deleted successfully")
    ∧ select_user_by_id s' u = None
    ∧ (∀ r, r ∈ users s' ↔ r ∈ users s ∧ str_UUID (user_id_col r) ≠ str_UUID u)
    ∧ login SECRET_KEY REFRESH_SECRET_KEY (DbUp s') (mkUserLogin name password) now
      = Raise (EHTTP invalid_login).
Proof.
  intros Hadmin Hparse Hrow Hname.
  exists (delete_users s u). split_and!.
  - unfold delete_user. rewrite Hparse, Hadmin. cbn [negb connect_to_db].
    by rewrite Hrow.
  - unfold select_user_by_id, delete_users. cbn [users].
    apply fetchone_deleted. apply Forall_forall. intros r _ Hid Hne.
    by apply bool_decide_eq_true_1 in Hid.
  - intros r. unfold delete_users. cbn [users].
    rewrite list_elem_of_filter. tauto.
  - unfold login, get_user_by_username, delete_users.
    cbn [connect_to_db res_bind users form_username].
    rewrite fetchone_deleted; [done|].
    eapply Forall_impl; [exact Hname|]. intros r Hr Huser Hne.
    apply bool_decide_eq_true_1 in Huser. by apply Hne, Hr.
Qed.
End accounts_changes.

(** ** User queries *)

Section users_properties.
Context {hasher : PasswordHasher} {codec : TokenCodec}.
Variable http_str : HTTPException → string.
Variable UUID_of_str : string → option UUID.
Variables SECRET_KEY REFRESH_SECRET_KEY : string.

(** X15. After a login under a non-empty username, the caller that the access
    token resolves to reads, through [read_users_me], the very row that
    [login] checked the password against. *)
Theorem login_then_read_users_me db form now now' user :
  get_user_by_username db (form_username form) = Ok (Some user) →
  verify_password (form_password form) (password_col user) = Ok true →
  username_col user ≠ "" →
  (now' ≤ now + 1800)%Z →
  ∃ pair caller,
    login SECRET_KEY REFRESH_SECRET_KEY db form now = Ok pair
    ∧ get_current_user SECRET_KEY (tok_access_token pair) now' = Ok caller
    ∧ Users.read_users_me db caller =
        Ok (mkUserView (str_UUID (user_id_col user)) (username_col user)
              (email_col user) (is_admin_col user)).
Proof.
  intros Hget Hpw Hname Hnow.
  eexists _, _. split; [by apply login_found|]. split.
  - unfold pair_signed. cbn [tok_access_token].
    apply get_current_user_signed; [done | apply str_UUID_nonempty | done].
  - unfold Users.read_users_me. cbn [td_username].
    assert (username_col user = form_username form) as Hsame.
    { unfold get_user_by_username in Hget.
      destruct (connect_to_db db) as [conn|]; [|done].
      cbn [res_bind] in Hget. injection Hget as Hget.
      apply fetchone_Some in Hget as [_ Hget].
      by apply bool_decide_eq_true_1 in Hget. }
    rewrite <- Hsame in Hget. by rewrite Hget.
Qed.

(** X16. [read_user] shows a row to its own user (by username) and to admins
    only: a reply means that the caller is one of the two, and the reply
    is the view of a stored row with the id asked for. *)
Theorem read_user_authorized db user_id cu view :
  Users.read_user UUID_of_str db user_id cu = Ok view →
  (td_username cu = view_username view ∨ td_is_admin cu = true)
  ∧ ∃ s u row,
      db = DbUp s ∧ UUID_of_str user_id = Some u
      ∧ row ∈ users s
      ∧ str_UUID (user_id_col row) = str_UUID u
      ∧ view = mkUserView (str_UUID (user_id_col row)) (username_col row)
                 (email_col row) (is_admin_col row).
Proof.
  unfold Users.read_user, Users.get_user_by_id.
  destruct (UUID_of_str user_id) as [u|]; [|done].
  destruct db as [|msg|s]; [done..|]. cbn [connect_to_db res_bind].
  unfold select_user_by_id.
  destruct (fetchone _ (users s)) as [row|] eqn:Hrow; [|done].
  cbn [fmap option_fmap option_map info_of_row info_username].
  apply fetchone_Some in Hrow as [Hin Hid].
  apply bool_decide_eq_true_1 in Hid.
  destruct (bool_decide (td_username cu = username_col row)
            || td_is_admin cu) eqn:Hauth; [|done].
  intros [= <-]. split.
  - apply orb_true_iff in Hauth as [Hself | Hadmin]; [left | by right].
    by apply bool_decide_eq_true_1 in Hself.
  - by exists s, u, row.
Qed.

End users_properties.

(** ** Database helpers *)

Lemma fetchone_id_updated (u v : UUID) (user_data : UserUpdate) (table : list user_row) :
  fetchone (λ r, bool_decide (str_UUID (user_id_col r) = str_UUID v))
    (map (λ r, if bool_decide (str_UUID (user_id_col r) = str_UUID u)
               then mkUserRow (user_id_col r) (upd_username user_data)
                      (upd_email user_data) (password_col r) (upd_is_admin user_data)
               else r) table)
  = (λ r, if bool_decide (str_UUID (user_id_col r) = str_UUID u)
          then mkUserRow (user_id_col r) (upd_username user_data)
                 (upd_email user_data) (password_col r) (upd_is_admin user_data)
          else r)
    <$> fetchone (λ r, bool_decide (str_UUID (user_id_col r) = str_UUID v)) table.
Proof.
  unfold fetchone. induction table as [|r table IH]; [reflexivity|].
  cbn [map find].
  assert (user_id_col (if bool_decide (str_UUID (user_id_col r) = str_UUID u)
                       then mkUserRow (user_id_col r) (upd_username user_data)
                              (upd_email user_data) (password_col r)
                              (upd_is_admin user_data)
                       else r) = user_id_col r) as -> by (by case_bool_decide).
  destruct (bool_decide (str_UUID (user_id_col r) = str_UUID v)); [done|].
  exact IH.
Qed.

Section database_properties.
Variable http_str : HTTPException → string.
Variable UUID_of_str : string → option UUID.

(** X18. [update_user] of the database helpers never returns: it raises for
    every input. When the id parses and the store is reached it raises
    after the change is committed, so that the row it found reads back
    with the new username, email and is_admin. *)
Theorem database_update_user_always_raises db user_id username email is_admin :
  (∃ e, (Database.update_user UUID_of_str db user_id username email is_admin).2
        = Raise e)
  ∧ (∀ s u row,
     db = DbUp s → UUID_of_str user_id = Some u →
     select_user_by_id s u = Some row →
     ∃ db',
       Database.update_user UUID_of_str db user_id username email is_admin
         = (db', Raise (EHTTP (mkHTTPException 500 "Database connection error" [])))
       ∧ Database.get_user_by_id UUID_of_str db' user_id
         = Ok (Some (mkUserInfo (user_id_col row) username email is_admin))).
Proof.
  split.
  - unfold Database.update_user.
    destruct (UUID_of_str user_id); [|by eexists].
    destruct db; by eexists.
  - intros s u row -> Hparse Hrow.
    unfold Database.update_user, Database.get_user_by_id. rewrite Hparse.
    cbn [connect_to_db]. eexists. split; [reflexivity|].
    cbn [connect_to_db res_bind]. unfold select_user_by_id, update_users.
    cbn [users]. rewrite fetchone_id_updated.
    unfold select_user_by_id in Hrow. rewrite Hrow.
    apply fetchone_Some in Hrow as [_ Hid].
    cbn [fmap option_fmap option_map]. by rewrite Hid.
Qed.

(** X19. [delete_user] of the database helpers never returns either; when
    the id parses and the store is reached, the rows of that id are gone
    although the call raised. *)
Theorem database_delete_user_always_raises db user_id :
  (∃ e, (Database.delete_user UUID_of_str db user_id).2 = Raise e)
  ∧ (∀ s u,
     db = DbUp s → UUID_of_str user_id = Some u →
     ∃ db',
       Database.delete_user UUID_of_str db user_id
         = (db', Raise (EHTTP (mkHTTPException 500 "Database connection error" [])))
       ∧ Database.get_user_by_id UUID_of_str db' user_id = Ok None).
Proof.
  split.
  - unfold Database.delete_user.
    destruct (UUID_of_str user_id); [|by eexists].
    destruct db; by eexists.
  - intros s u -> Hparse.
    unfold Database.delete_user, Database.get_user_by_id. rewrite Hparse.
    cbn [connect_to_db]. eexists. split; [reflexivity|].
    cbn [connect_to_db res_bind]. unfold select_user_by_id, delete_users.
    cbn [users]. rewrite fetchone_deleted; [done|].
    apply Forall_forall. intros r _ Hid Hne.
    by apply bool_decide_eq_true_1 in Hid.
Qed.

(** X20. A user created by [create_user] under an id that no row has reads
    back through [get_user_by_id]; the password is stored as given and
    no username or email is checked. *)
Theorem create_user_then_get_user_by_id s username email password is_admin
    new_id user_id u :
  Forall (λ r, str_UUID (user_id_col r) ≠ str_UUID new_id) (users s) →
  UUID_of_str user_id = Some u →
  str_UUID u = str_UUID new_id →
  ∃ s',
    Database.create_user (DbUp s) username email password is_admin new_id
      = (DbUp s', Ok new_id)
    ∧ users s' = (users s ++ [mkUserRow new_id username email password is_admin])%list
    ∧ Database.get_user_by_id UUID_of_str (DbUp s') user_id
      = Ok (Some (mkUserInfo new_id username email is_admin)).
Proof.
  intros Hfresh Hparse Hu. eexists. split; [reflexivity|]. split; [reflexivity|].
  unfold Database.get_user_by_id. rewrite Hparse.
  cbn [connect_to_db res_bind]. unfold select_user_by_id, insert_user.
  cbn [users]. rewrite fetchone_app, fetchone_None.
  - unfold fetchone. cbn [find user_id_col].
    by rewrite bool_decide_eq_true_2.
  - eapply Forall_impl; [exact Hfresh|]. intros r Hr.
    apply bool_decide_eq_false_2. by rewrite Hu.
Qed.
End database_properties.

(** ** The battle between users *)

Section battles_properties.
Variable http_str : HTTPException → string.
Variable UUID_of_str : string → option UUID.

(** X21. Between two users that are found, [create_battle] names as winner
    the one with the larger number, and writes that user's id to
    [battles]; with equal numbers nobody wins: the winner is "Draw", the
    row has no winner id and the report says "It was a draw!". *)
Theorem create_battle_outcome s opponent_id cu fleet1 fleet2 u row1 row2 :
  users_ready UUID_of_str s opponent_id cu row1 row2 →
  ∃ reply written,
    Battles.create_battle http_str UUID_of_str (DbUp s) opponent_id cu fleet1 fleet2 u
      = Ok (reply, written)
    ∧ user_1 reply = username_col row1 ∧ user_2 reply = username_col row2
    ∧ user_1_id written = user_id_col row1 ∧ user_2_id written = user_id_col row2
    ∧ battles_report written = reply_report reply
    ∧ ((fleet1 > fleet2)%Z →
       winner reply = username_col row1
       ∧ battles_winner_id written = Some (user_id_col row1))
    ∧ ((fleet2 > fleet1)%Z →
       winner reply = username_col row2
       ∧ battles_winner_id written = Some (user_id_col row2))
    ∧ (fleet1 = fleet2 →
       winner reply = "Draw" ∧ battles_winner_id written = None
       ∧ ∃ before, reply_report reply = before ++ "It was a draw!").
Proof.
  intros ((u1 & Hp1 & Hrow1) & (u2 & Hp2 & Hrow2) & Hother).
  unfold Battles.create_battle, Database.get_user_by_id.
  cbn [connect_to_db res_bind]. rewrite Hp1, Hp2. cbn [res_bind].
  rewrite Hrow1, Hrow2. cbn [fmap option_fmap option_map try_except].
  rewrite bool_decide_eq_false_2 by done.
  cbn [info_of_row info_id info_username].
  destruct (Z.gtb_spec fleet1 fleet2) as [H12|H12];
    [|destruct (Z.gtb_spec fleet2 fleet1) as [H21|H21]];
    eexists _, _; (split; [reflexivity|]);
    cbn [user_1 user_2 user_1_id user_2_id battles_report reply_report winner
         battles_winner_id];
    split_and!; try done; try (intros; exfalso; lia).
  intros _. split_and!; [done..|].
  eexists. rewrite <- !string_app_assoc. reflexivity.
Qed.

(** X22. Whatever [create_battle] raises has status 500: an opponent that
    does not exist and a battle against oneself, refused with 404 and 400
    inside the [try], reach the caller as 500. *)
Theorem create_battle_raises_500 db opponent_id cu fleet1 fleet2 u e :
  Battles.create_battle http_str UUID_of_str db opponent_id cu fleet1 fleet2 u
    = Raise e →
  ∃ text, e = EHTTP (mkHTTPException 500 text []).
Proof.
  unfold Battles.create_battle.
  destruct db as [|msg|s]; cbn [connect_to_db res_bind].
  - intros [= <-]. eauto.
  - intros [= <-]. eauto.
  - unfold try_except, wrap_500.
    destruct (res_bind _ _); intros [= <-]. eauto.
Qed.

(** X23. A caller whose token is still accepted but whose row is gone cannot
    battle: with an opponent that exists, [create_battle] fails on the
    missing row with status 500 and writes nothing. *)
Theorem create_battle_without_own_row s opponent_id cu fleet1 fleet2 u u1 u2 row2 :
  UUID_of_str (td_id cu) = Some u1 →
  select_user_by_id s u1 = None →
  UUID_of_str (str_UUID opponent_id) = Some u2 →
  select_user_by_id s u2 = Some row2 →
  str_UUID opponent_id ≠ td_id cu →
  Battles.create_battle http_str UUID_of_str (DbUp s) opponent_id cu fleet1 fleet2 u
    = Raise (EHTTP (mkHTTPException 500
        "Battle error: 'NoneType' object is not subscriptable" [])).
Proof.
  intros Hp1 Hrow1 Hp2 Hrow2 Hother.
  unfold Battles.create_battle, Database.get_user_by_id.
  cbn [connect_to_db res_bind]. rewrite Hp1, Hp2. cbn [res_bind].
  rewrite Hrow1, Hrow2. cbn [fmap option_fmap option_map try_except].
  by rewrite bool_decide_eq_false_2.
Qed.
End battles_properties.

(** ** Fleet removal *)

Lemma fetchone_kept {R} (P : R → bool) (Q : R → Prop) `{∀ r, Decision (Q r)}
    (table : list R) :
  Forall (λ r, P r = true → Q r) table →
  fetchone P (filter Q table) = fetchone P table.
Proof.
  unfold fetchone. induction 1 as [|r table Hr _ IH]; [done|].
  rewrite filter_cons. cbn [find].
  destruct (P r) eqn:HP.
  - rewrite decide_True by auto. cbn [find]. by rewrite HP.
  - case_decide; [|done]. cbn [find]. by rewrite HP.
Qed.

Section user_fleets_properties.
Variable http_str : HTTPException → string.

(** X24. Once its owner has deleted a fleet, no battle involves it: the fleet
    is not found any more, [start_battle] returns no result with it as
    attacker or as defender, and the users and the fleets of other ids
    are as before. *)
Theorem delete_user_fleet_then_no_battle s fleet cu row :
  select_fleet s fleet = Some row →
  str_UUID (fleet_user_id_col row) = td_id cu →
  ∃ s',
    UserFleets.delete_user_fleet http_str (DbUp s) fleet cu
      = (DbUp s', Ok "User fleet deleted successfully")
    ∧ select_fleet s' fleet = None
    ∧ users s' = users s
    ∧ (∀ other, str_UUID other ≠ str_UUID fleet →
                select_fleet s' other = select_fleet s other)
    ∧ (∀ other caller u r,
         start_battle http_str (DbUp s') fleet other caller u ≠ Ok r
         ∧ start_battle http_str (DbUp s') other fleet caller u ≠ Ok r).
Proof.
  intros Hrow Hown. exists (delete_fleets s fleet).
  assert (select_fleet (delete_fleets s fleet) fleet = None) as Hgone.
  { unfold select_fleet, delete_fleets. cbn [user_fleets].
    apply fetchone_deleted. apply Forall_forall. intros r _ Hid Hne.
    by apply bool_decide_eq_true_1 in Hid. }
  split_and!; [| done | done | |].
  - unfold UserFleets.delete_user_fleet. cbn [connect_to_db]. rewrite Hrow.
    rewrite bool_decide_eq_false_2 by (intros Hne; by apply Hne).
    reflexivity.
  - intros other Hother. unfold select_fleet, delete_fleets. cbn [user_fleets].
    apply fetchone_kept. apply Forall_forall. intros r _ Hid.
    apply bool_decide_eq_true_1 in Hid. by rewrite Hid.
  - intros other caller u r. rewrite !start_battle_up. unfold try_except.
    split.
    + destruct (start_battle_body _ fleet other caller u) as [r'|] eqn:Hbody; [|done].
      apply start_battle_body_Ok_ready in Hbody as (a & d & Ha & _).
      by rewrite Hgone in Ha.
    + destruct (start_battle_body _ other fleet caller u) as [r'|] eqn:Hbody; [|done].
      apply start_battle_body_Ok_ready in Hbody as (a & d & _ & Hd & _).
      by rewrite Hgone in Hd.
Qed.

(** X25. A removal that fails changes nothing and has status 500: a fleet of
    another owner, refused with 403 inside the [try], is kept and the
    caller is told 500. *)
Theorem delete_user_fleet_failure db fleet cu db' e :
  UserFleets.delete_user_fleet http_str db fleet cu = (db', Raise e) →
  db' = db ∧ ∃ text, e = EHTTP (mkHTTPException 500 text []).
Proof.
  unfold UserFleets.delete_user_fleet.
  destruct db as [|msg|s]; cbn [connect_to_db].
  - intros [= <- <-]. eauto.
  - intros [= <- <-]. eauto.
  - destruct (select_fleet s fleet) as [row|].
    + case_bool_decide.
      * unfold try_except, wrap_500. cbn [res_bind]. intros [= <- <-]. eauto.
      * cbn [try_except res_bind]. intros [=].
    + unfold try_except, wrap_500. cbn [res_bind]. intros [= <- <-]. eauto.
Qed.

(** X26. Only the owner removes a fleet: after any call of
    [delete_user_fleet] by a caller who does not own the fleet, the
    fleet is found as before. *)
Theorem delete_user_fleet_owner_only s fleet cu row db' outcome :
  select_fleet s fleet = Some row →
  str_UUID (fleet_user_id_col row) ≠ td_id cu →
  UserFleets.delete_user_fleet http_str (DbUp s) fleet cu = (db', outcome) →
  db' = DbUp s
  ∧ outcome = Raise (wrap_500 http_str "Error deleting user fleet: "
      (EHTTP (mkHTTPException 403 "Unauthorized to delete this fleet" []))).
Proof.
  intros Hrow Hown. unfold UserFleets.delete_user_fleet. cbn [connect_to_db].
  rewrite Hrow, bool_decide_eq_true_2 by done.
  by intros [= <- <-].
Qed.
End user_fleets_properties.

(** * The further properties at concrete inputs *)

Module Run2.
Import Sample Sample2.

Ltac run := vm_compute; (reflexivity || discriminate).


Lemma stronger_fleet_wins_either_way_witness :
  winner_id alice_attacks = winner_id bob_attacks
  ∧ loser_id alice_attacks = loser_id bob_attacks.
Proof.
  refine (stronger_fleet_wins_either_way http_str db2 (mkUUID 5) (mkUUID 2)
            caller_alice caller_bob (mkUUID 77) (mkUUID 78)
            (fleet 5 alice {[ "x" := 10 ]}) (fleet 2 bob {[ "x" := 3; "y" := 2 ]})
            alice_attacks bob_attacks _ _ _ _ _).
  - unfold battle_ready; split_and!; run.
  - unfold battle_ready; split_and!; run.
  - run.
  - run.
  - run.
Defined.

Lemma empty_attacker_never_wins_witness :
  winner_id empty_attack = bob ∧ loser_id empty_attack = alice
  ∧ attacker_total_ships empty_attack = 0%Z.
Proof.
  refine (empty_attacker_never_wins http_str db (mkUUID 3) (mkUUID 2) caller_alice
            (mkUUID 77) (fleet 3 alice ∅) (fleet 2 bob {[ "x" := 3; "y" := 2 ]})
            empty_attack _ _ _ _).
  - unfold battle_ready; split_and!; run.
  - reflexivity.
  - change (map_Forall (λ (_ : string) (count : Z), (0 ≤ count)%Z)
              (<["x" := 3%Z]> ({[ "y" := 2%Z ]} : gmap string Z))).
    apply map_Forall_insert_2; [lia|]. apply map_Forall_singleton. lia.
  - run.
Defined.

(** Alice logs in at time 100 and refreshes three times, the last time
    at 1000000; the access token of the last pair resolves half an hour
    later. *)
Lemma session_extends_by_refresh_witness :
  ∃ pair pair',
    login (hasher := toy_hasher) (codec := sym_codec) "k-access" "k-refresh"
      (DbUp db) (mkUserLogin "alice" "pw") 100 = Ok pair
    ∧ refresh_chain (codec := sym_codec) "k-access" "k-refresh" pair
        [1000; 500000; 1000000]%Z = Ok pair'
    ∧ get_current_user (codec := sym_codec) "k-access" (tok_access_token pair')
        1001800 = Ok (mkTokenData (str_UUID alice) "alice" false).
Proof.
  refine (@session_extends_by_refresh toy_hasher sym_codec "k-access" "k-refresh"
            (DbUp db) (mkUserLogin "alice" "pw") 100 [1000; 500000; 1000000]%Z
            1001800 alice_row _ _ _ _ _).
  - run.
  - run.
  - run.
  - cbn [within_a_week]. lia.
  - cbn [List.last]. lia.
Defined.

Lemma principal_has_id_and_username_witness : "7" ≠ "" ∧ "guest" ≠ "".
Proof.
  refine (@principal_has_id_and_username sym_codec "k-access"
            (Signed claims_guest "k-access") 0 (mkTokenData "7" "guest" false) _).
  run.
Defined.




Lemma registration_keeps_names_unique_witness :
  ∃ s', DbUp (insert_user db2 (carol_row false)) = DbUp s'
    ∧ NoDup (map username_col (users s'))
    ∧ NoDup (map email_col (users s')).
Proof.
  refine (@registration_keeps_names_unique toy_hasher toy_scheme http_str db2
            carol_form "s1" carol (DbUp (insert_user db2 (carol_row false)))
            (Ok (mkCreated "User created successfully" carol)) _ _ _).
  - compute_done.
  - compute_done.
  - left. run.
Defined.

(** The username "alice" is taken. *)
Lemma registration_failure_witness :
  DbUp db2 = DbUp db2
  ∧ ∃ text,
      EHTTP (mkHTTPException 500
        "Error creating user: 400: Username already taken" [])
      = EHTTP (mkHTTPException 500 text []).
Proof.
  refine (@registration_failure toy_hasher toy_scheme http_str (DbUp db2)
            (mkUserRegister "alice" "al@example.org" "x") "s1" carol (DbUp db2) _ _).
  left. run.
Defined.

Lemma non_admin_changes_no_user_witness :
  (∃ e, update_user http_str parse_uuid (DbUp db2) (str_UUID bob) robert caller_alice
          = (DbUp db2, Raise (EHTTP e))
        ∧ (status_code e = 400 ∨ status_code e = 403)%Z)
  ∧ (∃ e, delete_user http_str parse_uuid (DbUp db2) (str_UUID bob) caller_alice
            = (DbUp db2, Raise (EHTTP e))
          ∧ (status_code e = 400 ∨ status_code e = 403)%Z).
Proof.
  refine (non_admin_changes_no_user http_str parse_uuid (DbUp db2) (str_UUID bob)
            robert caller_alice _).
  reflexivity.
Defined.

Lemma update_user_keeps_ids_and_passwords_witness :
  ∃ s', DbUp (update_users db2 bob robert) = DbUp s'
    ∧ map user_id_col (users s') = map user_id_col (users db2)
    ∧ map password_col (users s') = map password_col (users db2)
    ∧ user_fleets s' = user_fleets db2.
Proof.
  refine (update_user_keeps_ids_and_passwords http_str parse_uuid db2
            (str_UUID bob) robert caller_root (DbUp (update_users db2 bob robert))
            (Ok "User updated successfully") _).
  run.
Defined.

(** The admin renames "bobby" to "robert"; the password "pw" still logs in. *)
Lemma update_user_then_login_witness :
  ∃ db' pair,
    update_user http_str parse_uuid (DbUp db2) (str_UUID bob) robert caller_root
      = (db', Ok "User updated successfully")
    ∧ login (hasher := toy_hasher) (codec := sym_codec) "k-access" "k-refresh" db'
        (mkUserLogin "robert" "pw") 100 = Ok pair
    ∧ get_current_user (codec := sym_codec) "k-access" (tok_access_token pair) 1900
      = Ok (mkTokenData (str_UUID bob) "robert" true).
Proof.
  refine (@update_user_then_login toy_hasher sym_codec http_str parse_uuid
            "k-access" "k-refresh" db2 (str_UUID bob) bob robert caller_root
            bobby_row "pw" 100 1900 _ _ _ _ _ _ _).
  - reflexivity.
  - run.
  - run.
  - repeat constructor; intros _; run.
  - run.
  - run.
  - lia.
Defined.

(** The admin deletes "bobby", who cannot log in any more. *)
Lemma delete_user_then_login_witness :
  ∃ s',
    delete_user http_str parse_uuid (DbUp db2) (str_UUID bob) caller_root
      = (DbUp s', Ok "User deleted successfully")
    ∧ select_user_by_id s' bob = None
    ∧ (∀ r, r ∈ users s' ↔ r ∈ users db2 ∧ str_UUID (user_id_col r) ≠ str_UUID bob)
    ∧ login (hasher := toy_hasher) (codec := sym_codec) "k-access" "k-refresh"
        (DbUp s') (mkUserLogin "bobby" "pw") 100
      = Raise (EHTTP invalid_login).
Proof.
  refine (@delete_user_then_login toy_hasher sym_codec http_str parse_uuid
            "k-access" "k-refresh" db2 (str_UUID bob) bob caller_root bobby_row
            "bobby" "pw" 100 _ _ _ _).
  - reflexivity.
  - run.
  - run.
  - repeat constructor; intros Hname; vm_compute in Hname; try discriminate;
      reflexivity.
Defined.

Lemma login_then_read_users_me_witness :
  ∃ pair caller,
    login (hasher := toy_hasher) (codec := sym_codec) "k-access" "k-refresh"
      (DbUp db2) (mkUserLogin "alice" "pw") 100 = Ok pair
    ∧ get_current_user (codec := sym_codec) "k-access" (tok_access_token pair) 1900
      = Ok caller
    ∧ Users.read_users_me (DbUp db2) caller
      = Ok (mkUserView (str_UUID alice) "alice" "alice@example.org" false).
Proof.
  refine (@login_then_read_users_me toy_hasher sym_codec "k-access" "k-refresh"
            (DbUp db2) (mkUserLogin "alice" "pw") 100 1900 alice_row _ _ _ _).
  - run.
  - run.
  - run.
  - lia.
Defined.

(** Alice reads her own row. *)
Lemma read_user_authorized_witness :
  ("alice" = "alice" ∨ false = true)
  ∧ ∃ s u row,
      DbUp db2 = DbUp s ∧ parse_uuid (str_UUID alice) = Some u
      ∧ row ∈ users s
      ∧ str_UUID (user_id_col row) = str_UUID u
      ∧ mkUserView (str_UUID alice) "alice" "alice@example.org" false
        = mkUserView (str_UUID (user_id_col row)) (username_col row)
            (email_col row) (is_admin_col row).
Proof.
  refine (read_user_authorized parse_uuid (DbUp db2) (str_UUID alice) caller_alice
            (mkUserView (str_UUID alice) "alice" "alice@example.org" false) _).
  run.
Defined.


(** The helper renames "bobby", raises, and the new name reads back. *)
Lemma database_update_user_always_raises_witness :
  ∃ db',
    Database.update_user parse_uuid (DbUp db2) (str_UUID bob) "robert"
      "rob@example.org" true
      = (db', Raise (EHTTP (mkHTTPException 500 "Database connection error" [])))
    ∧ Database.get_user_by_id parse_uuid db' (str_UUID bob)
      = Ok (Some (mkUserInfo bob "robert" "rob@example.org" true)).
Proof.
  refine (proj2 (database_update_user_always_raises parse_uuid (DbUp db2)
                   (str_UUID bob) "robert" "rob@example.org" true)
            db2 bob bobby_row _ _ _).
  - reflexivity.
  - run.
  - run.
Defined.

Lemma database_delete_user_always_raises_witness :
  ∃ db',
    Database.delete_user parse_uuid (DbUp db2) (str_UUID bob)
      = (db', Raise (EHTTP (mkHTTPException 500 "Database connection error" [])))
    ∧ Database.get_user_by_id parse_uuid db' (str_UUID bob) = Ok None.
Proof.
  refine (proj2 (database_delete_user_always_raises parse_uuid (DbUp db2)
                   (str_UUID bob)) db2 bob _ _).
  - reflexivity.
  - run.
Defined.

Lemma create_user_then_get_user_by_id_witness :
  ∃ s',
    Database.create_user (DbUp db2) "carol" "carol@example.org" "secret" false carol
      = (DbUp s', Ok carol)
    ∧ users s' = (users db2
                  ++ [mkUserRow carol "carol" "carol@example.org" "secret" false])%list
    ∧ Database.get_user_by_id parse_uuid (DbUp s') (str_UUID carol)
      = Ok (Some (mkUserInfo carol "carol" "carol@example.org" false)).
Proof.
  refine (create_user_then_get_user_by_id parse_uuid db2 "carol"
            "carol@example.org" "secret" false carol (str_UUID carol) carol _ _ _).
  - repeat constructor; run.
  - run.
  - reflexivity.
Defined.

(** Alice battles "bobby" with the same number on both sides. *)
Lemma create_battle_outcome_witness :
  ∃ reply written,
    Battles.create_battle http_str parse_uuid (DbUp db2) bob caller_alice 40 40
      (mkUUID 90) = Ok (reply, written)
    ∧ user_1 reply = "alice" ∧ user_2 reply = "bobby"
    ∧ user_1_id written = alice ∧ user_2_id written = bob
    ∧ battles_report written = reply_report reply
    ∧ ((40 > 40)%Z → winner reply = "alice" ∧ battles_winner_id written = Some alice)
    ∧ ((40 > 40)%Z → winner reply = "bobby" ∧ battles_winner_id written = Some bob)
    ∧ (40%Z = 40%Z →
       winner reply = "Draw" ∧ battles_winner_id written = None
       ∧ ∃ before, reply_report reply = before ++ "It was a draw!").
Proof.
  refine (create_battle_outcome http_str parse_uuid db2 bob caller_alice 40 40
            (mkUUID 90) alice_row bobby_row _).
  unfold users_ready. split_and!.
  - exists alice. split; run.
  - exists bob. split; run.
  - run.
Defined.

(** Carol is in no row: the opponent is not found. *)
Lemma create_battle_raises_500_witness :
  ∃ text,
    EHTTP (mkHTTPException 500 "Battle error: 404: Opponent not found" [])
    = EHTTP (mkHTTPException 500 text []).
Proof.
  refine (create_battle_raises_500 http_str parse_uuid (DbUp db2) carol
            caller_alice 40 41 (mkUUID 90) _ _).
  run.
Defined.

(** Carol's token is accepted, her row is gone. *)
Lemma create_battle_without_own_row_witness :
  Battles.create_battle http_str parse_uuid (DbUp db2) bob caller_carol 40 41
    (mkUUID 90)
  = Raise (EHTTP (mkHTTPException 500
      "Battle error: 'NoneType' object is not subscriptable" [])).
Proof.
  refine (create_battle_without_own_row http_str parse_uuid db2 bob caller_carol
            40 41 (mkUUID 90) carol bob bobby_row _ _ _ _ _); run.
Defined.

(** Alice deletes her fleet 1. *)
Lemma delete_user_fleet_then_no_battle_witness :
  ∃ s',
    UserFleets.delete_user_fleet http_str (DbUp db2) (mkUUID 1) caller_alice
      = (DbUp s', Ok "User fleet deleted successfully")
    ∧ select_fleet s' (mkUUID 1) = None
    ∧ users s' = users db2
    ∧ (∀ other, str_UUID other ≠ str_UUID (mkUUID 1) →
                select_fleet s' other = select_fleet db2 other)
    ∧ (∀ other caller u r,
         start_battle http_str (DbUp s') (mkUUID 1) other caller u ≠ Ok r
         ∧ start_battle http_str (DbUp s') other (mkUUID 1) caller u ≠ Ok r).
Proof.
  refine (delete_user_fleet_then_no_battle http_str db2 (mkUUID 1) caller_alice
            (fleet 1 alice {[ "x" := 5 ]}) _ _); run.
Defined.

(** Alice tries to delete Bob's fleet 2. *)
Lemma delete_user_fleet_failure_witness :
  DbUp db2 = DbUp db2
  ∧ ∃ text,
      EHTTP (mkHTTPException 500
        "Error deleting user fleet: 403: Unauthorized to delete this fleet" [])
      = EHTTP (mkHTTPException 500 text []).
Proof.
  refine (delete_user_fleet_failure http_str (DbUp db2) (mkUUID 2) caller_alice
            (DbUp db2) _ _).
  run.
Defined.

Lemma delete_user_fleet_owner_only_witness :
  DbUp db2 = DbUp db2
  ∧ @Raise string (EHTTP (mkHTTPException 500
      "Error deleting user fleet: 403: Unauthorized to delete this fleet" []))
    = Raise (wrap_500 http_str "Error deleting user fleet: "
        (EHTTP (mkHTTPException 403 "Unauthorized to delete this fleet" []))).
Proof.
  refine (delete_user_fleet_owner_only http_str db2 (mkUUID 2) caller_alice
            (fleet 2 bob {[ "x" := 3; "y" := 2 ]}) (DbUp db2)
            (Raise (EHTTP (mkHTTPException 500
               "Error deleting user fleet: 403: Unauthorized to delete this fleet" [])))
            _ _ _); run.
Defined.
End Run2.
